(** * LiveConnect-Studio backend: the per-node agent registry

    A shallow embedding of [Backend/app/controller/processor/services.py],
    [Backend/app/controller/processor/routes.py] and
    [Backend/app/utils/middleware/response_format.py], followed by the
    properties of the node registry, the worker supervisor and the provider
    initialisation that the specification states.

    Conventions of the embedding:
    - a parsed JSON body and every Python object built from it is a [pyval];
      a [dict] is an association list in insertion order;
    - the module-level registries [user_configs] and [user_agents] are
      [gmap]s inside an explicit [state], next to the table of threads the
      process has spawned;
    - a Python exception is the [Raise] branch of [result];
    - [logger] calls are returned as a list of [log_entry];
    - what the environment decides (whether a joined thread exits in time,
      whether the shutdown event is set at a poll, which optional plugins
      were imported, whether the constructor of a provider adapter raises,
      the JWT library, the rooms service, [str.lower] outside ASCII) is an
      explicit argument;
    - a request handler runs to its end before the next one starts. *)

From Stdlib Require Import ZArith Lia Bool Ascii String.
From stdpp Require Import base option countable strings list gmap fin_maps.

Local Open Scope string_scope.
Local Open Scope list_scope.
Local Open Scope nat_scope.
Set Warnings "-register-all".

(** ** Python values *)

(** What [json] parsing yields, and what the handlers build from it. JSON
    numbers are modelled as integers: the code below only tests a number
    for truth, uses it as a dict key or passes it on. *)
Inductive pyval : Type :=
| PNone
| PBool (b : bool)
| PInt (n : Z)
| PStr (s : string)
| PList (xs : list pyval)
| PDict (kvs : list (string * pyval)).

(** [bool(v)]: the truth value Python gives an object in [if], [not],
    [and], [or] and [all]. *)
Definition truthy (v : pyval) : bool :=
  match v with
  | PNone => false
  | PBool b => b
  | PInt n => negb (n =? 0)%Z
  | PStr s => negb (String.eqb s "")
  | PList xs => match xs with [] => false | _ => true end
  | PDict kvs => match kvs with [] => false | _ => true end
  end.

(** [a or b] *)
Definition py_or (a b : pyval) : pyval := if truthy a then a else b.

(** An exception: its class and its text [str(e)]. The texts of the
    exceptions the interpreter raises are those of CPython 3.11 to 3.13. *)
Inductive exn : Type :=
| AttributeError (msg : string)
| TypeError (msg : string)
| KeyError (msg : string)
| ValueError (msg : string)
| HTTPException (msg : string).

(** [str(e)] *)
Definition str_exn (e : exn) : string :=
  match e with
  | AttributeError msg | TypeError msg | KeyError msg
  | ValueError msg | HTTPException msg => msg
  end.

(** [type(v).__name__] *)
Definition type_name (v : pyval) : string :=
  match v with
  | PNone => "NoneType"
  | PBool _ => "bool"
  | PInt _ => "int"
  | PStr _ => "str"
  | PList _ => "list"
  | PDict _ => "dict"
  end.

(** The exception of [v.attr] on an object without that attribute. *)
Definition no_attribute (v : pyval) (attr : string) : exn :=
  AttributeError ("'" +:+ type_name v +:+ "' object has no attribute '" +:+ attr +:+ "'").

Inductive result (A : Type) : Type :=
| Ok (a : A)
| Raise (e : exn).
Arguments Ok {A} a.
Arguments Raise {A} e.

Definition bind {A B} (r : result A) (k : A -> result B) : result B :=
  match r with
  | Ok a => k a
  | Raise e => Raise e
  end.

Notation "'let*' x ':=' c 'in' k" := (bind c (fun x => k))
  (at level 10, x pattern, c at level 100, k at level 200).

(** Lookup in a [dict] held as an association list. *)
Fixpoint assoc {A} (k : string) (kvs : list (string * A)) : option A :=
  match kvs with
  | [] => None
  | (k', v) :: rest => if String.eqb k k' then Some v else assoc k rest
  end.

(** [k in d] for a dict [d]. *)
Definition has_key {A} (k : string) (kvs : list (string * A)) : bool :=
  match assoc k kvs with Some _ => true | None => false end.

(** [v.get(k, default)]: only a dict has the method. *)
Definition get (v : pyval) (k : string) (dflt : pyval) : result pyval :=
  match v with
  | PDict kvs => Ok (default dflt (assoc k kvs))
  | _ => Raise (no_attribute v "get")
  end.

(** [v[k]] for a key written as a literal in the source (its [repr] is
    the key between single quotes). *)
Definition subscript (v : pyval) (k : string) : result pyval :=
  match v with
  | PDict kvs =>
      match assoc k kvs with
      | Some x => Ok x
      | None => Raise (KeyError ("'" +:+ k +:+ "'"))
      end
  | PStr _ => Raise (TypeError "string indices must be integers, not 'str'")
  | PList _ => Raise (TypeError "list indices must be integers or slices, not str")
  | _ => Raise (TypeError ("'" +:+ type_name v +:+ "' object is not subscriptable"))
  end.

(** The keys under which the registries hold a node: Python hashes a
    [str], an [int] or [None]; [True] and [1] are the same key; a [list] or
    a [dict] is unhashable. *)
Inductive key : Type :=
| KNone
| KInt (n : Z)
| KStr (s : string).

#[global] Instance key_eq_dec : EqDecision key.
Proof. solve_decision. Defined.

Definition key_to_sum (k : key) : unit + (Z + string) :=
  match k with
  | KNone => inl tt
  | KInt n => inr (inl n)
  | KStr s => inr (inr s)
  end.

Definition key_of_sum (x : unit + (Z + string)) : key :=
  match x with
  | inl _ => KNone
  | inr (inl n) => KInt n
  | inr (inr s) => KStr s
  end.

#[global] Instance key_countable : Countable key.
Proof. by apply (inj_countable' key_to_sum key_of_sum); intros []. Defined.

(** [hash(v)] as the dict subscript needs it. *)
Definition hash_key (v : pyval) : result key :=
  match v with
  | PNone => Ok KNone
  | PBool b => Ok (KInt (if b then 1 else 0))
  | PInt n => Ok (KInt n)
  | PStr s => Ok (KStr s)
  | PList _ | PDict _ => Raise (TypeError ("unhashable type: '" +:+ type_name v +:+ "'"))
  end.

(** ** Logging *)

Inductive level : Type := INFO | WARNING | ERROR.

Inductive provider_kind : Type := STT | LLM | TTS.

(** One constructor per message the source formats; the arguments are the
    values interpolated in the f-string. *)
Inductive log_msg : Type :=
| AgentStarted (node : pyval)
| StoppingAgent (node : pyval)
| DidNotStopGracefully (node : pyval)
| InvalidConfigurationRetrying (node : pyval)
| ErrorCreatingWorkerOptions (node : pyval) (e : exn)
| CredentialsMissing (node : pyval)
| AutoLoading (node : pyval)
| AutoStarted (node : pyval)
| CredentialsNotInEnvironment
| ReceivedConfiguration (node : pyval)
| ErrorSettingConfig (e : exn)
| ErrorGeneratingToken (e : exn)
| CredentialsNotFound (node : pyval)
| ErrorProcessingConfig (node : pyval) (e : exn)
| CleanedUp (node : pyval)
| InitializingProvider (k : provider_kind) (provider : string) (node : pyval)
| UnsupportedProvider (k : provider_kind) (provider : string) (node : pyval)
| PluginNotAvailable (plugin : string)
| AssistantInitialized (node : pyval)
| InitializationFailed (node : pyval) (e : exn).

Definition log_entry : Type := level * log_msg.

(** The messages of the functions outside the activation path, next to
    those above. *)
Inductive ext_msg : Type :=
| Core (m : log_msg)
| RestartingAgent (node : pyval)
| ReceivedShutdownSignal
| ErrorFetchingRooms (node : pyval) (e : exn).

Definition ext_entry : Type := level * ext_msg.

Definition core (l : list log_entry) : list ext_entry :=
  (fun e => (e.1, Core e.2)) <$> l.

(** ** Requests and the response envelope *)

Record request : Type := {
  get_json : result pyval;          (* [request.get_json()] *)
  args : list (string * string);    (* [request.args], first value per key *)
  x_node_id : option string         (* [request.headers.get('X-Node-ID')] *)
}.

Definition opt_str (o : option string) : pyval :=
  match o with Some s => PStr s | None => PNone end.

(** [request.args.get('nodeId') or request.headers.get('X-Node-ID')] *)
Definition request_node_id (req : request) : pyval :=
  py_or (opt_str (assoc "nodeId" (args req))) (opt_str (x_node_id req)).

Record response : Type := {
  body : list (string * pyval);
  http_status : nat
}.

(** response_format.py *)
Definition resp_success (message : string) (data : pyval) : response :=
  {| body := [("status", PStr "success"); ("message", PStr message)]
             ++ match data with PNone => [] | _ => [("data", data)] end;
     http_status := 200 |}.

Definition resp_failure (message : string) (error : pyval) : response :=
  {| body := [("status", PStr "failure"); ("message", PStr message)]
             ++ match error with PNone => [] | _ => [("error", error)] end;
     http_status := 400 |}.

Definition is_success (r : response) : bool :=
  match assoc "status" (body r) with
  | Some (PStr s) => String.eqb s "success" && Nat.eqb (http_status r) 200
  | _ => false
  end.

Definition is_failure (r : response) : bool :=
  match assoc "status" (body r) with
  | Some (PStr s) => String.eqb s "failure" && Nat.eqb (http_status r) 400
  | _ => false
  end.

(** ** Threads *)

(** A [threading.Thread] the process has started: the node its name
    [f"Agent-{node_id}"] carries, and whether it still runs. A thread is
    named by its index in the table. *)
Record thread : Type := {
  thread_node : pyval;
  alive : bool
}.

(** [thread.is_alive()] *)
Definition is_alive (ths : list thread) (tid : nat) : bool :=
  match ths !! tid with
  | Some t => alive t
  | None => false
  end.

(** The thread's target function returns. *)
Definition terminate (tid : nat) (ths : list thread) : list thread :=
  alter (fun t => {| thread_node := thread_node t; alive := false |}) tid ths.

(** [thread.join(timeout)] blocks until the thread terminates or [timeout]
    time units have passed, whichever comes first. [exit_after] is the time
    the thread needs to terminate, counted from the call ([None]: it does
    not terminate). The result is the thread table at return and the time
    the caller was blocked. *)
Definition join (ths : list thread) (tid timeout : nat) (exit_after : option nat)
  : list thread * nat :=
  match exit_after with
  | Some d => if (d <=? timeout)%nat then (terminate tid ths, d) else (ths, timeout)
  | None => (ths, timeout)
  end.

(** ** The media-credential check shared by both [_validate_config] *)

Definition required_livekit : list string := ["apiKey"; "secret"; "serverUrl"].

(** [all(config.get("liveKit", {}).get(key) for key in keys)] *)
Fixpoint all_livekit (cfg : pyval) (keys : list string) : result bool :=
  match keys with
  | [] => Ok true
  | k :: ks =>
      let* lk := get cfg "liveKit" (PDict []) in
      let* v := get lk k PNone in
      if truthy v then all_livekit cfg ks else Ok false
  end.

(** ** class UserAgentManager *)

Record WorkerOptions : Type := {
  api_key : pyval;
  api_secret : pyval;
  ws_url : pyval
}.

Module UserAgentManager.

Record t : Type := {
  node_id : pyval;
  config : pyval;
  agent_thread : option nat;
  shutdown_event : bool
}.

Definition __init__ (node_id : pyval) (config : pyval) : t :=
  {| node_id := node_id; config := config;
     agent_thread := None; shutdown_event := false |}.

Definition set_agent_thread (m : t) (tid : nat) : t :=
  {| node_id := node_id m; config := config m;
     agent_thread := Some tid; shutdown_event := shutdown_event m |}.

Definition set_shutdown_event (m : t) : t :=
  {| node_id := node_id m; config := config m;
     agent_thread := agent_thread m; shutdown_event := true |}.

(** [self.agent_thread and self.agent_thread.is_alive()] as a condition *)
Definition thread_alive (m : t) (ths : list thread) : bool :=
  match agent_thread m with
  | Some tid => is_alive ths tid
  | None => false
  end.

(** The new thread is appended to the table and runs from the return of
    [Thread.start()]. *)
Definition start_agent (m : t) (ths : list thread)
  : t * list thread * list log_entry :=
  if negb (thread_alive m ths) then
    (set_agent_thread m (length ths),
     ths ++ [{| thread_node := node_id m; alive := true |}],
     [(INFO, AgentStarted (node_id m))])
  else (m, ths, []).

(** The last component is the time the caller spent in [join]. *)
Definition stop_agent (m : t) (ths : list thread) (exit_after : option nat)
  : t * list thread * list log_entry * nat :=
  match agent_thread m with
  | Some tid =>
      if is_alive ths tid then
        let m' := set_shutdown_event m in
        let '(ths', waited) := join ths tid 5 exit_after in
        (m', ths',
         (INFO, StoppingAgent (node_id m))
           :: (if is_alive ths' tid
               then [(WARNING, DidNotStopGracefully (node_id m))]
               else []),
         waited)
      else (m, ths, [], 0)
  | None => (m, ths, [], 0)
  end.

Definition _validate_config (m : t) (config : pyval)
  : result bool * list log_entry :=
  match all_livekit config required_livekit with
  | Ok true => (Ok true, [])
  | Ok false => (Ok false, [(ERROR, CredentialsMissing (node_id m))])
  | Raise e => (Raise e, [])
  end.

(** The body of the [try] in the loop of [_create_worker_options]:
    [Ok (Some _)] is the [return], [Ok None] falls through to the
    warning and the sleep. *)
Definition try_worker_options (m : t)
  : result (option WorkerOptions) * list log_entry :=
  match _validate_config m (config m) with
  | (Ok true, l) =>
      (let* livekit_config := get (config m) "liveKit" (PDict []) in
       let* k := subscript livekit_config "apiKey" in
       let* s := subscript livekit_config "secret" in
       let* u := subscript livekit_config "serverUrl" in
       Ok (Some {| api_key := k; api_secret := s; ws_url := u |}), l)
  | (Ok false, l) => (Ok None, l)
  | (Raise e, l) => (Raise e, l)
  end.

(** [_create_worker_options]. [is_set n] is what
    [self.shutdown_event.is_set()] answers at the [n]-th test of the loop
    condition, counted from [poll]. The result is the value returned, the
    time spent in [asyncio.sleep] and the log; [None] when [fuel]
    iterations did not reach a [return]. *)
Fixpoint _create_worker_options (fuel : nat) (m : t) (is_set : nat -> bool)
    (poll : nat) : option (option WorkerOptions * nat * list log_entry) :=
  match fuel with
  | O => None
  | S fuel' =>
      if is_set poll then Some (None, 0, [])
      else
        match try_worker_options m with
        | (Ok (Some opts), l) => Some (Some opts, 0, l)
        | (Ok None, l) =>
            '(r, slept, l') ← _create_worker_options fuel' m is_set (S poll);
            Some (r, 5 + slept,
                  l ++ (WARNING, InvalidConfigurationRetrying (node_id m)) :: l')
        | (Raise e, l) =>
            '(r, slept, l') ← _create_worker_options fuel' m is_set (S poll);
            Some (r, 5 + slept,
                  l ++ (ERROR, ErrorCreatingWorkerOptions (node_id m) e) :: l')
        end
  end.

Definition clear_shutdown_event (m : t) : t :=
  {| node_id := node_id m; config := config m;
     agent_thread := agent_thread m; shutdown_event := false |}.

(** [time.sleep(pause)] after a [stop_agent] that blocked for [waited]:
    the manager's thread, asked to stop at the start of the join, is gone
    at the end of the pause when it needed no longer than the two
    together. *)
Definition sleep_after_stop (m : t) (ths : list thread) (exit_after : option nat)
    (waited pause : nat) : list thread :=
  match agent_thread m, exit_after with
  | Some tid, Some d => if d <=? waited + pause then terminate tid ths else ths
  | _, _ => ths
  end.

(** [restart_agent]. The last component is the time the caller was blocked
    in [join] and [time.sleep]. *)
Definition restart_agent (m : t) (ths : list thread) (exit_after : option nat)
  : t * list thread * list ext_entry * nat :=
  let '(m1, ths1, l1, waited) := stop_agent m ths exit_after in
  let ths2 := sleep_after_stop m1 ths1 exit_after waited 1 in
  let m2 := clear_shutdown_event m1 in
  let '(m3, ths3, l3) := start_agent m2 ths2 in
  (m3, ths3, (INFO, RestartingAgent (node_id m)) :: core l1 ++ core l3, waited + 1).

End UserAgentManager.

(** ** Module state and [load_config_from_env] *)

(** [user_configs], [user_agents] and the threads started so far.
    ([user_shutdown_events] is never read or written.) *)
Record state : Type := {
  user_configs : gmap key pyval;
  user_agents : gmap key UserAgentManager.t;
  threads : list thread
}.

Definition empty_state : state :=
  {| user_configs := ∅; user_agents := ∅; threads := [] |}.

(** [os.getenv(name, default)] over an environment [env]. *)
Definition getenv (env : string -> option string) (name dflt : string) : string :=
  default dflt (env name).

Definition load_config_from_env (env : string -> option string) : pyval :=
  PDict
    [("stt", PDict [("provider", PStr (getenv env "STT_PROVIDER" "groq"));
                    ("apiKey", PStr (getenv env "STT_API_KEY" ""))]);
     ("llm", PDict [("provider", PStr (getenv env "LLM_PROVIDER" "groq"));
                    ("apiKey", PStr (getenv env "LLM_API_KEY" ""))]);
     ("tts", PDict [("provider", PStr (getenv env "TTS_PROVIDER" "groq"));
                    ("apiKey", PStr (getenv env "TTS_API_KEY" ""))]);
     ("liveKit", PDict [("apiKey", PStr (getenv env "LIVEKIT_API_KEY" ""));
                        ("secret", PStr (getenv env "LIVEKIT_API_SECRET" ""));
                        ("serverUrl", PStr (getenv env "LIVEKIT_SERVER_URL" ""))])].

(** ** class Service *)

Module Service.
Import UserAgentManager.

Definition _auto_load_env_config (env : string -> option string) (st : state)
  : state * list log_entry :=
  let env_config := load_config_from_env env in
  let node := getenv env "NODE_ID" "default-node" in
  if truthy (PStr (getenv env "LIVEKIT_API_KEY" ""))
     && truthy (PStr (getenv env "LIVEKIT_API_SECRET" ""))
     && truthy (PStr (getenv env "LIVEKIT_SERVER_URL" ""))
  then
    let agent_manager := __init__ (PStr node) env_config in
    let '(agent_manager', ths, l) := start_agent agent_manager (threads st) in
    ({| user_configs := <[KStr node := env_config]> (user_configs st);
        user_agents := <[KStr node := agent_manager']> (user_agents st);
        threads := ths |},
     (INFO, AutoLoading (PStr node)) :: l ++ [(INFO, AutoStarted (PStr node))])
  else (st, [(WARNING, CredentialsNotInEnvironment)]).

(** [Service()] at import of the routes: the registries start empty. *)
Definition __init__ (env : string -> option string) : state * list log_entry :=
  _auto_load_env_config env empty_state.

Definition required_top_level : list string := ["liveKit"; "stt"; "llm"; "tts"].

(** [exit_after] describes the thread of the node's previous manager, for
    the [join] inside [stop_agent]. No statement after the first write to
    [user_configs] raises, so the handler always sees the state the call
    started from. *)
Definition set_config (req : request) (exit_after : option nat) (st : state)
  : response * state * list log_entry :=
  let failed (e : exn) (l : list log_entry) :=
    (resp_failure "Failed to set config" (PStr (str_exn e)), st,
     l ++ [(ERROR, ErrorSettingConfig e)]) in
  match get_json req with
  | Raise e => failed e []
  | Ok (PDict d as data) =>
      let node_id := py_or (default PNone (assoc "nodeId" d)) (opt_str (x_node_id req)) in
      if negb (truthy node_id) then
        (resp_failure "nodeId is required"
           (PStr "Please provide nodeId in request body or X-Node-ID header"),
         st, [])
      else
        let l0 := [(INFO, ReceivedConfiguration node_id)] in
        if negb (forallb (fun k => has_key k d) required_top_level) then
          (resp_failure "Invalid configuration" (PStr "Missing required top-level keys"),
           st, l0)
        else
          match hash_key node_id with
          | Raise e => failed e l0
          | Ok k =>
              let configs := <[k := data]> (user_configs st) in
              let '(ths1, l1) :=
                match user_agents st !! k with
                | Some old =>
                    let '(_, ths, l, _) := stop_agent old (threads st) exit_after in
                    (ths, l)
                | None => (threads st, [])
                end in
              let agent_manager := UserAgentManager.__init__ node_id data in
              let '(agent_manager', ths2, l2) := start_agent agent_manager ths1 in
              (resp_success "Config stored and agent started"
                 (PDict [("status", PStr "ok"); ("nodeId", node_id)]),
               {| user_configs := configs;
                  user_agents := <[k := agent_manager']> (user_agents st);
                  threads := ths2 |},
               l0 ++ l1 ++ l2)
          end
  | Ok data => failed (no_attribute data "get") []   (* [data.get] on a non-dict *)
  end.

Definition get_config (req : request) (st : state) : response :=
  match request_node_id req with
  | PStr node_id =>
      if negb (truthy (PStr node_id)) then
        resp_failure "nodeId is required"
          (PStr "Please provide nodeId parameter or X-Node-ID header")
      else
        let config := default (PDict []) (user_configs st !! KStr node_id) in
        resp_success "Configuration retrieved successfully"
          (PDict [("config", config); ("nodeId", PStr node_id)])
  | _ =>
      resp_failure "nodeId is required"
        (PStr "Please provide nodeId parameter or X-Node-ID header")
  end.

(** [agent_manager and agent_manager.agent_thread and
    agent_manager.agent_thread.is_alive()]: the value of the first falsy
    operand, else of the last one. *)
Definition agent_running (o : option UserAgentManager.t) (ths : list thread) : pyval :=
  match o with
  | None => PNone
  | Some m =>
      match agent_thread m with
      | None => PNone
      | Some tid => PBool (is_alive ths tid)
      end
  end.

Definition health_check (req : request) (st : state) : response :=
  let overall :=
    PDict [("status", PStr "ok");
           ("total_nodes", PInt (Z.of_nat (size (user_configs st))));
           ("active_agents",
             PInt (Z.of_nat (length
               (List.filter (fun m => thread_alive m (threads st))
                  (snd <$> map_to_list (user_agents st))))));
           ("services",
             PDict [("config", PBool true);
                    ("token", PBool true);
                    ("multi_node", PBool true)])] in
  let health_data :=
    match request_node_id req with
    | PStr node_id =>
        if truthy (PStr node_id) then
          let agent_manager := user_agents st !! KStr node_id in
          let config_available :=
            bool_decide (is_Some (user_configs st !! KStr node_id)) in
          PDict [("status", PStr "ok");
                 ("nodeId", PStr node_id);
                 ("services",
                   PDict [("config", PBool config_available);
                          ("token", PBool true);
                          ("agent", agent_running agent_manager (threads st))]);
                 ("config_available", PBool config_available)]
        else overall
    | _ => overall
    end in
  resp_success "Health check completed" health_data.

(** [cleanup_node(node_id: str)]. Neither [stop_agent] nor the guarded
    [del]s raise, so the [except] branch returning [False] is never
    taken. *)
Definition cleanup_node (node_id : string) (exit_after : option nat) (st : state)
  : bool * state * list log_entry :=
  let '(agents, ths, l1) :=
    match user_agents st !! KStr node_id with
    | Some m =>
        let '(_, ths, l, _) := stop_agent m (threads st) exit_after in
        (delete (KStr node_id) (user_agents st), ths, l)
    | None => (user_agents st, threads st, [])
    end in
  let configs :=
    match user_configs st !! KStr node_id with
    | Some _ => delete (KStr node_id) (user_configs st)
    | None => user_configs st
    end in
  (true,
   {| user_configs := configs; user_agents := agents; threads := ths |},
   l1 ++ [(INFO, CleanedUp (PStr node_id))]).

Definition _get_livekit_config_for_node (node_id : string) (st : state)
  : (pyval * pyval * pyval) * list log_entry :=
  let node_config := default (PDict []) (user_configs st !! KStr node_id) in
  match
    (let* livekit_config := get node_config "liveKit" (PDict []) in
     let* api_key := get livekit_config "apiKey" PNone in
     let* secret := get livekit_config "secret" PNone in
     let* server_url := get livekit_config "serverUrl" PNone in
     Ok (api_key, secret, server_url))
  with
  | Ok (api_key, secret, server_url) =>
      if negb (truthy api_key) || negb (truthy secret) then
        ((PNone, PNone, PNone), [(WARNING, CredentialsNotFound (PStr node_id))])
      else ((api_key, secret, server_url), [])
  | Raise e =>
      ((PNone, PNone, PNone), [(ERROR, ErrorProcessingConfig (PStr node_id) e)])
  end.

Section token.
(** [api.AccessToken(api_key, secret).with_identity(name).with_name(name)
    .with_grants(api.VideoGrants(room_join=True, room=room)).to_jwt()]
    of the LiveKit library, as a function of the four values the source
    passes; and the string [str(uuid.uuid4())] drawn by this call. *)
Variable to_jwt : pyval -> pyval -> string -> string -> result string.
Variable uuid4 : string.

Definition get_token (req : request) (st : state) : response * list log_entry :=
  let no_node :=
    (resp_failure "nodeId is required"
       (PStr "Please provide nodeId parameter or X-Node-ID header"), []) in
  match request_node_id req with
  | PStr node_id =>
      if negb (truthy (PStr node_id)) then no_node
      else
        let not_found :=
          (resp_failure "Configuration not found"
             (PStr ("No configuration found for nodeId: " +:+ node_id)), []) in
        match user_configs st !! KStr node_id with
        | None => not_found
        | Some node_config =>
            if negb (truthy node_config) then not_found
            else
              let '((api_key, secret, server_url), l) :=
                _get_livekit_config_for_node node_id st in
              if negb (truthy api_key) || negb (truthy secret) then
                (resp_failure "LiveKit configuration not available"
                   (PStr ("Please configure LiveKit credentials for nodeId: "
                          +:+ node_id)), l)
              else
                let name := default ("user-" +:+ node_id) (assoc "name" (args req)) in
                let generated :=
                  "room-" +:+ node_id +:+ "-" +:+ String.substring 0 8 uuid4 in
                let room :=
                  match assoc "room" (args req) with
                  | Some r => if truthy (PStr r) then r else generated
                  | None => generated
                  end in
                match to_jwt api_key secret name room with
                | Ok token =>
                    (resp_success "Token generated successfully"
                       (PDict [("token", PStr token);
                               ("room", PStr room);
                               ("serverUrl", server_url);
                               ("nodeId", PStr node_id)]), l)
                | Raise e =>
                    (resp_failure "Failed to generate token" (PStr (str_exn e)),
                     l ++ [(ERROR, ErrorGeneratingToken e)])
                end
        end
  | _ => no_node
  end.
End token.

Section rooms.
(** [LiveKitAPI(url, api_key, api_secret)], its [room.list_rooms], [aclose]
    and the names of the rooms returned, as one call of the LiveKit
    library that answers or raises. *)
Variable list_rooms : pyval -> pyval -> pyval -> result (list string).

Definition _get_rooms_async (node_id : string) (st : state)
  : list string * list ext_entry :=
  let '((api_key, secret, server_url), l) := _get_livekit_config_for_node node_id st in
  if negb (truthy api_key) || negb (truthy secret) then ([], core l)
  else
    match list_rooms (if truthy server_url then server_url else PNone) api_key secret with
    | Ok rooms => (rooms, core l)
    | Raise e => ([], core l ++ [(ERROR, ErrorFetchingRooms (PStr node_id) e)])
    end.

(** [get_rooms]. Creating, running and closing the event loop does not
    raise, so the outer handler is not reached. *)
Definition get_rooms (req : request) (st : state) : response * list ext_entry :=
  let no_node :=
    (resp_failure "nodeId is required"
       (PStr "Please provide nodeId parameter or X-Node-ID header"), []) in
  match request_node_id req with
  | PStr node_id =>
      if negb (truthy (PStr node_id)) then no_node
      else
        let '(rooms, l) := _get_rooms_async node_id st in
        (resp_success "Rooms retrieved successfully"
           (PDict [("rooms", PList (PStr <$> rooms)); ("nodeId", PStr node_id)]), l)
  | _ => no_node
  end.
End rooms.

End Service.

(** ** routes.py *)

Module routes.

(** Every handler first rejects a request without a node id. *)
Definition missing_node_id (req : request) : bool :=
  negb (truthy (request_node_id req)).

Definition node_id_required : response :=
  resp_failure "nodeId required"
    (PStr "Please provide nodeId parameter or X-Node-ID header").

Definition get_config (req : request) (st : state) : response :=
  if missing_node_id req then node_id_required
  else Service.get_config req st.

Definition health_check (req : request) (st : state) : response :=
  Service.health_check req st.

Definition cleanup_user (req : request) (exit_after : option nat) (st : state)
  : response * state :=
  match request_node_id req with
  | PStr node_id =>
      if negb (truthy (PStr node_id)) then (node_id_required, st)
      else
        let '(success, st', _) := Service.cleanup_node node_id exit_after st in
        if success then
          (resp_success "User resources cleaned up successfully"
             (PDict [("nodeId", PStr node_id)]), st')
        else
          (resp_failure "Failed to cleanup user resources"
             (PStr ("Could not cleanup resources for nodeId: " +:+ node_id)), st')
  | _ => (node_id_required, st)
  end.

End routes.

(** ** [signal_handler] *)

(** The loop over [user_agents.items()]: [order] is the order in which the
    dict yields its nodes (their insertion order, which the [gmap] does not
    keep), [exit_after k] the behaviour of the thread of node [k] once it
    is asked to stop. The last component is the time spent in the joins. *)
Fixpoint stop_all (order : list key) (exit_after : key -> option nat)
    (agents : gmap key UserAgentManager.t) (ths : list thread)
  : gmap key UserAgentManager.t * list thread * list log_entry * nat :=
  match order with
  | [] => (agents, ths, [], 0)
  | k :: rest =>
      match agents !! k with
      | Some m =>
          let '(m', ths', l, w) := UserAgentManager.stop_agent m ths (exit_after k) in
          let '(agents'', ths'', l', w') :=
            stop_all rest exit_after (<[k := m']> agents) ths' in
          (agents'', ths'', l ++ l', w + w')
      | None => stop_all rest exit_after agents ths
      end
  end.

(** The state in which [sys.exit(0)] is called. *)
Definition signal_handler (order : list key) (exit_after : key -> option nat)
    (st : state) : state * list ext_entry * nat :=
  let '(agents, ths, l, w) := stop_all order exit_after (user_agents st) (threads st) in
  ({| user_configs := user_configs st; user_agents := agents; threads := ths |},
   (INFO, ReceivedShutdownSignal) :: core l, w).

(** ** class VoiceAssistant *)

Definition DEFAULT_CONFIG : pyval :=
  PDict [("stt", PDict [("provider", PStr "groq"); ("apiKey", PStr "")]);
         ("llm", PDict [("provider", PStr "groq"); ("apiKey", PStr "")]);
         ("tts", PDict [("provider", PStr "groq"); ("apiKey", PStr "")]);
         ("liveKit", PDict [("apiKey", PStr ""); ("secret", PStr "");
                            ("serverUrl", PStr "")])].

(** [c.lower()] for an ASCII character [c]. *)
Definition ascii_lower (c : ascii) : ascii :=
  let n := nat_of_ascii c in
  if (65 <=? n) && (n <=? 90) then ascii_of_nat (n + 32) else c.

(** [s.lower()] for a string of ASCII characters. *)
Fixpoint lower (s : string) : string :=
  match s with
  | EmptyString => EmptyString
  | String c rest => String (ascii_lower c) (lower rest)
  end.

(** All characters of [s] are ASCII (a [string] holds the UTF-8 bytes of
    the Python [str]). *)
Fixpoint is_ascii (s : string) : bool :=
  match s with
  | EmptyString => true
  | String c rest => (nat_of_ascii c <? 128) && is_ascii rest
  end.

(** An adapter object [<plugin>.STT(api_key=...)], [.LLM(...)] or
    [.TTS(...)]: the plugin module, the class, the key it was built with. *)
Record adapter : Type := Adapter {
  adapter_plugin : string;
  adapter_kind : provider_kind;
  adapter_api_key : pyval
}.

Module VoiceAssistant.

Record t : Type := {
  config : pyval;
  node_id : pyval;
  stt : option adapter;
  llm : option adapter;
  tts : option adapter;
  _initialized : bool
}.

Definition __init__ (config : pyval) (node_id : pyval) : t :=
  {| config := py_or config DEFAULT_CONFIG; node_id := node_id;
     stt := None; llm := None; tts := None; _initialized := false |}.

Definition set_adapter (k : provider_kind) (a : t) (x : adapter) : t :=
  {| config := config a; node_id := node_id a;
     stt := match k with STT => Some x | _ => stt a end;
     llm := match k with LLM => Some x | _ => llm a end;
     tts := match k with TTS => Some x | _ => tts a end;
     _initialized := _initialized a |}.

Definition get_adapter (k : provider_kind) (a : t) : option adapter :=
  match k with STT => stt a | LLM => llm a | TTS => tts a end.

Definition set_initialized (a : t) (b : bool) : t :=
  {| config := config a; node_id := node_id a;
     stt := stt a; llm := llm a; tts := tts a; _initialized := b |}.

Definition _validate_config (a : t) (config : pyval)
  : result bool * list log_entry :=
  match all_livekit config required_livekit with
  | Ok true => (Ok true, [])
  | Ok false => (Ok false, [(ERROR, CredentialsMissing (node_id a))])
  | Raise e => (Raise e, [])
  end.

Section plugins.
(** Whether [__import__('livekit.plugins.<name>')] succeeded when the
    module was loaded. *)
Variable imported : string -> bool.

(** Python's [str.lower] on the strings that hold a character outside
    ASCII. *)
Variable unicode_lower : string -> string.

(** Whether the constructor [<plugin>.STT(api_key=key)], [.LLM(...)] or
    [.TTS(...)] of the LiveKit plugin raises, and what. *)
Variable raises : string -> provider_kind -> pyval -> option exn.

(** [s.lower()] *)
Definition str_lower (s : string) : string :=
  if is_ascii s then lower s else unicode_lower s.

(** [v.lower()]: only a [str] has the method. *)
Definition py_lower (v : pyval) : result string :=
  match v with
  | PStr s => Ok (str_lower s)
  | _ => Raise (no_attribute v "lower")
  end.

(** The module-level dict after the import loop: the module (named by
    its plugin) or [None]. *)
Definition OPTIONAL_PLUGINS : list (string * option string) :=
  (fun name => (name, if imported name then Some name else None))
    <$> ["deepgram"; "azure"; "openai"; "anthropic"; "elevenlabs"; "google"].

Definition _get_plugin (plugin_name : string) : option string * list log_entry :=
  let plugin := mjoin (assoc (str_lower plugin_name) OPTIONAL_PLUGINS) in
  match plugin with
  | None => (None, [(WARNING, PluginNotAvailable plugin_name)])
  | Some _ => (plugin, [])
  end.

(** [<plugin>.<K>(api_key=api_key)] *)
Definition construct (plugin : string) (k : provider_kind) (api_key : pyval)
  : result adapter :=
  match raises plugin k api_key with
  | Some e => Raise e
  | None => Ok (Adapter plugin k api_key)
  end.

(** [self.<k> = <plugin>.<K>(api_key=api_key)], after the log [l]. *)
Definition assign (k : provider_kind) (plugin : string) (api_key : pyval) (a : t)
    (l : list log_entry) : result t * list log_entry :=
  match construct plugin k api_key with
  | Ok x => (Ok (set_adapter k a x), l)
  | Raise e => (Raise e, l)
  end.

(** [if plugin := self._get_plugin(name): self.<k> = plugin.<K>(api_key=api_key)] *)
Definition from_plugin (k : provider_kind) (name : string) (api_key : pyval) (a : t)
  : result t * list log_entry :=
  match _get_plugin name with
  | (Some plugin, l) => assign k plugin api_key a l
  | (None, l) => (Ok a, l)
  end.

(** The three lines every [_initialize_*] starts with. *)
Definition provider_and_key (a : t) (section : string) : result (string * pyval) :=
  let* cfg := get (config a) section (PDict []) in
  let* p := get cfg "provider" (PStr "groq") in
  let* provider := py_lower p in
  let* api_key := get cfg "apiKey" (PStr "") in
  Ok (provider, api_key).

(** Each [_initialize_*] yields the assistant it leaves, or the exception
    it raises, and what it logged until then. *)
Definition _initialize_stt (a : t) : result t * list log_entry :=
  match provider_and_key a "stt" with
  | Raise e => (Raise e, [])
  | Ok (provider, api_key) =>
      let '(r, l) :=
        if String.eqb provider "groq" then assign STT "groq" api_key a []
        else if String.eqb provider "deepgram" then from_plugin STT "deepgram" api_key a
        else if String.eqb provider "azure" then from_plugin STT "azure" api_key a
        else assign STT "groq" api_key a
               [(WARNING, UnsupportedProvider STT provider (node_id a))] in
      (r, (INFO, InitializingProvider STT provider (node_id a)) :: l)
  end.

Definition _initialize_llm (a : t) : result t * list log_entry :=
  match provider_and_key a "llm" with
  | Raise e => (Raise e, [])
  | Ok (provider, api_key) =>
      let '(r, l) :=
        if String.eqb provider "groq" then assign LLM "groq" api_key a []
        else if String.eqb provider "openai" then from_plugin LLM "openai" api_key a
        else if String.eqb provider "anthropic" then from_plugin LLM "anthropic" api_key a
        else if String.eqb provider "azure" then from_plugin LLM "azure" api_key a
        else if String.eqb provider "gemini" then from_plugin LLM "google" api_key a
        else assign LLM "groq" api_key a
               [(WARNING, UnsupportedProvider LLM provider (node_id a))] in
      (r, (INFO, InitializingProvider LLM provider (node_id a)) :: l)
  end.

Definition _initialize_tts (a : t) : result t * list log_entry :=
  match provider_and_key a "tts" with
  | Raise e => (Raise e, [])
  | Ok (provider, api_key) =>
      let '(r, l) :=
        if String.eqb provider "groq" then assign TTS "groq" api_key a []
        else if String.eqb provider "elevenlabs" then from_plugin TTS "elevenlabs" api_key a
        else if String.eqb provider "openai" then from_plugin TTS "openai" api_key a
        else if String.eqb provider "azure" then from_plugin TTS "azure" api_key a
        else if String.eqb provider "google" then from_plugin TTS "google" api_key a
        else if String.eqb provider "deepgram" then from_plugin TTS "deepgram" api_key a
        else assign TTS "groq" api_key a
               [(WARNING, UnsupportedProvider TTS provider (node_id a))] in
      (r, (INFO, InitializingProvider TTS provider (node_id a)) :: l)
  end.

(** [initialize]. ([Service.get_instance()] returns the existing
    singleton and changes nothing.) An exception leaves the adapters
    assigned so far in place. *)
Definition initialize (a : t) : bool * t * list log_entry :=
  let failed (a : t) (e : exn) (l : list log_entry) :=
    (false, set_initialized a false,
     l ++ [(ERROR, InitializationFailed (node_id a) e)]) in
  if negb (truthy (config a)) then (false, a, [])
  else
    match _validate_config a (config a) with
    | (Raise e, l) => failed a e l
    | (Ok false, l) => (false, a, l)
    | (Ok true, l) =>
        match _initialize_stt a with
        | (Raise e, l1) => failed a e (l ++ l1)
        | (Ok a1, l1) =>
            match _initialize_llm a1 with
            | (Raise e, l2) => failed a1 e (l ++ l1 ++ l2)
            | (Ok a2, l2) =>
                match _initialize_tts a2 with
                | (Raise e, l3) => failed a2 e (l ++ l1 ++ l2 ++ l3)
                | (Ok a3, l3) =>
                    (true, set_initialized a3 true,
                     l ++ l1 ++ l2 ++ l3
                       ++ [(INFO, AssistantInitialized (node_id a))])
                end
            end
        end
    end.
End plugins.

End VoiceAssistant.

(** ** The specification's vocabulary *)

(** The media-credential invariant as the specification words it: the three
    media credentials are all present and non-empty strings. This is the
    reference the code's [all_livekit] check is compared with. *)
Definition non_empty (o : option pyval) : bool :=
  match o with
  | Some (PStr s) => negb (String.eqb s "")
  | _ => false
  end.

Definition media_credential_invariant (cfg : pyval) : bool :=
  match cfg with
  | PDict d =>
      match assoc "liveKit" d with
      | Some (PDict lk) =>
          non_empty (assoc "apiKey" lk) && non_empty (assoc "secret" lk)
          && non_empty (assoc "serverUrl" lk)
      | _ => false
      end
  | _ => false
  end.

(** A credential typed as the data model has it: a string, or missing. *)
Definition string_or_missing (o : option pyval) : bool :=
  match o with
  | None | Some PNone | Some (PStr _) => true
  | _ => false
  end.

Definition credentials_typed (cfg : pyval) : bool :=
  match cfg with
  | PDict d =>
      match assoc "liveKit" d with
      | Some (PDict lk) =>
          forallb (fun k => string_or_missing (assoc k lk)) required_livekit
      | _ => true
      end
  | _ => true
  end.

(** The provider keys each [_initialize_*] has a branch for, and the
    optional plugin a key other than the baseline resolves to. *)
Definition supported (k : provider_kind) : list string :=
  match k with
  | STT => ["groq"; "deepgram"; "azure"]
  | LLM => ["groq"; "openai"; "anthropic"; "azure"; "gemini"]
  | TTS => ["groq"; "elevenlabs"; "openai"; "azure"; "google"; "deepgram"]
  end.

Definition is_supported (k : provider_kind) (provider : string) : bool :=
  existsb (String.eqb provider) (supported k).

Definition plugin_of (provider : string) : string :=
  if String.eqb provider "gemini" then "google" else provider.

Definition section_of (k : provider_kind) : string :=
  match k with STT => "stt" | LLM => "llm" | TTS => "tts" end.

Definition initialize_kind (imported : string -> bool)
    (unicode_lower : string -> string)
    (raises : string -> provider_kind -> pyval -> option exn) (k : provider_kind)
  : VoiceAssistant.t -> result VoiceAssistant.t * list log_entry :=
  match k with
  | STT => VoiceAssistant._initialize_stt imported unicode_lower raises
  | LLM => VoiceAssistant._initialize_llm imported unicode_lower raises
  | TTS => VoiceAssistant._initialize_tts imported unicode_lower raises
  end.

(** The plugin whose constructor the initialiser of class [k] calls for
    the lower-cased provider key [p]: groq for the baseline key and for a
    key without a branch, the key's optional plugin when it was imported,
    none when it was not. *)
Definition constructor_called (imported : string -> bool) (k : provider_kind)
    (p : string) : option string :=
  if String.eqb p "groq" || negb (is_supported k p) then Some "groq"
  else if imported (plugin_of p) then Some (plugin_of p)
  else None.

(** What the initialiser of class [k] logs after its first line: nothing
    for the baseline key and for an optional plugin that was imported, the
    plugin warning for one that was not, the unsupported-provider warning
    for a key without a branch. *)
Definition provider_warnings (imported : string -> bool) (k : provider_kind)
    (p : string) (node : pyval) : list log_entry :=
  if String.eqb p "groq" then []
  else if is_supported k p then
    if imported (plugin_of p) then []
    else [(WARNING, PluginNotAvailable (plugin_of p))]
  else [(WARNING, UnsupportedProvider k p node)].

(** What the statement [self.<k> = <plugin>.<K>(api_key=api_key)] makes
    of the assistant: the adapter assigned, or the exception of the
    constructor. *)
Definition built (raises : string -> provider_kind -> pyval -> option exn)
    (k : provider_kind) (plugin : string) (api_key : pyval) (a : VoiceAssistant.t)
  : result VoiceAssistant.t :=
  match raises plugin k api_key with
  | None => Ok (VoiceAssistant.set_adapter k a (Adapter plugin k api_key))
  | Some e => Raise e
  end.

(** The body of an activation request is an object holding the four
    top-level keys. *)
Definition has_top_level_keys (req : request) : bool :=
  match get_json req with
  | Ok (PDict d) => forallb (fun k => has_key k d) Service.required_top_level
  | _ => false
  end.

(** ** Histories of the registry *)

(** What can happen to the registry between two observations: an
    activation, a cleanup, or a worker thread returning on its own. The
    [exit_after] of the first two is the behaviour of the thread that the
    call joins. *)
Inductive event : Type :=
| Activate (req : request) (exit_after : option nat)
| Cleanup (node_id : string) (exit_after : option nat)
| Exit (tid : nat).

Definition run_event (st : state) (ev : event) : state :=
  match ev with
  | Activate req e => (Service.set_config req e st).1.2
  | Cleanup n e => (Service.cleanup_node n e st).1.2
  | Exit tid =>
      {| user_configs := user_configs st; user_agents := user_agents st;
         threads := terminate tid (threads st) |}
  end.

Definition run (st : state) (evs : list event) : state :=
  fold_left run_event evs st.

(** The joined thread exits within the grace timeout of [stop_agent]. *)
Definition in_time (exit_after : option nat) : bool :=
  match exit_after with
  | Some d => d <=? 5
  | None => false
  end.

Definition graceful (ev : event) : bool :=
  match ev with
  | Activate _ e | Cleanup _ e => in_time e
  | Exit _ => true
  end.

(** No two live threads carry the same node. *)
Definition at_most_one_alive (ths : list thread) : Prop :=
  ∀ i j ti tj,
    ths !! i = Some ti → ths !! j = Some tj →
    alive ti = true → alive tj = true →
    hash_key (thread_node ti) = hash_key (thread_node tj) →
    i = j.

(** Every live thread is the one its node's registered manager holds. *)
Definition owned (st : state) : Prop :=
  ∀ tid t,
    threads st !! tid = Some t → alive t = true →
    ∃ k m, hash_key (thread_node t) = Ok k
           ∧ user_agents st !! k = Some m
           ∧ UserAgentManager.agent_thread m = Some tid.

(** Requests used in the examples. *)
Definition query (n : string) : request :=
  {| get_json := Raise (HTTPException "415 Unsupported Media Type");
     args := [("nodeId", n)]; x_node_id := None |}.

Definition activation (data : pyval) : request :=
  {| get_json := Ok data; args := []; x_node_id := None |}.

Definition config_of (lk : list (string * pyval)) (n : string) : pyval :=
  PDict [("nodeId", PStr n);
         ("liveKit", PDict lk);
         ("stt", PDict [("provider", PStr "groq"); ("apiKey", PStr "k1")]);
         ("llm", PDict [("provider", PStr "groq"); ("apiKey", PStr "k2")]);
         ("tts", PDict [("provider", PStr "groq"); ("apiKey", PStr "k3")])].

Definition full_media : list (string * pyval) :=
  [("apiKey", PStr "key"); ("secret", PStr "sec"); ("serverUrl", PStr "wss://lk")].

Definition no_secret : list (string * pyval) :=
  [("apiKey", PStr "key"); ("serverUrl", PStr "wss://lk")].

Definition no_url : list (string * pyval) :=
  [("apiKey", PStr "key"); ("secret", PStr "sec"); ("serverUrl", PStr "")].

Definition missing_tts : pyval :=
  PDict [("nodeId", PStr "n1");
         ("liveKit", PDict full_media);
         ("stt", PDict [("provider", PStr "groq"); ("apiKey", PStr "k1")]);
         ("llm", PDict [("provider", PStr "groq"); ("apiKey", PStr "k2")])].

(** Node "n1" activated with a complete config. *)
Definition activated : state :=
  (Service.set_config (activation (config_of full_media "n1")) None empty_state).1.2.

(** A valid config with an optional STT provider, written in mixed case,
    an LLM provider no initialiser knows, and an api key in every
    section. *)
Definition keyed_config : pyval :=
  PDict [("liveKit", PDict full_media);
         ("stt", PDict [("provider", PStr "DeepGram"); ("apiKey", PStr "k1")]);
         ("llm", PDict [("provider", PStr "mistral"); ("apiKey", PStr "k2")]);
         ("tts", PDict [("apiKey", PStr "k3")])].

(** Constructors that insist on an api key, as the groq plugin does. *)
Definition empty_key_raises (plugin : string) (k : provider_kind) (api_key : pyval)
  : option exn :=
  if truthy api_key then None else Some (ValueError "an API key is required").

(** ** Further vocabulary *)

(** The thread asked to stop is gone [t] time units later. *)
Definition exits_within (t : nat) (exit_after : option nat) : bool :=
  match exit_after with
  | Some d => d <=? t
  | None => false
  end.

(** No registered manager holds thread [tid]. *)
Definition unreferenced (st : state) (tid : nat) : Prop :=
  ∀ k m, user_agents st !! k = Some m → UserAgentManager.agent_thread m ≠ Some tid.

(** A node has a config exactly when it has a manager, and every manager
    has started a thread. *)
Definition paired (st : state) : Prop :=
  (∀ k, is_Some (user_configs st !! k) ↔ is_Some (user_agents st !! k))
  ∧ ∀ k m, user_agents st !! k = Some m → is_Some (UserAgentManager.agent_thread m).

(** An environment with the three media credentials and nothing else. *)
Definition media_env (name : string) : option string :=
  if String.eqb name "LIVEKIT_API_KEY" then Some "key"
  else if String.eqb name "LIVEKIT_API_SECRET" then Some "sec"
  else if String.eqb name "LIVEKIT_SERVER_URL" then Some "wss://lk"
  else None.

(** The same environment with the three provider api keys. *)
Definition keyed_env (name : string) : option string :=
  if String.eqb name "STT_API_KEY" then Some "k1"
  else if String.eqb name "LLM_API_KEY" then Some "k2"
  else if String.eqb name "TTS_API_KEY" then Some "k3"
  else media_env name.

(** An activation whose node id is the number 7. *)
Definition numbered : pyval :=
  PDict [("nodeId", PInt 7);
         ("liveKit", PDict full_media);
         ("stt", PDict []); ("llm", PDict []); ("tts", PDict [])].

(** * Properties *)

(** ** The credential check against the specification's invariant *)

Lemma all_livekit_typed (cfg : pyval) :
  credentials_typed cfg = true →
  match all_livekit cfg required_livekit with
  | Ok b => b = media_credential_invariant cfg
  | Raise _ => media_credential_invariant cfg = false
  end.
Proof.
  destruct cfg as [| | | | |d]; try reflexivity.
  cbn [credentials_typed media_credential_invariant all_livekit required_livekit get bind].
  destruct (assoc "liveKit" d) as [[| | | | |lk]|]; try reflexivity.
  cbn.
  destruct (assoc "apiKey" lk) as [[| | |a| |]|],
           (assoc "secret" lk) as [[| | |s| |]|],
           (assoc "serverUrl" lk) as [[| | |u| |]|];
    cbn; try discriminate; try reflexivity; intros _;
    repeat (match goal with
            | |- context [String.eqb ?x ""] => destruct (String.eqb x "")
            end; cbn; try reflexivity).
Qed.

(** What one pass through the [try] of the retry loop yields. *)
Lemma try_worker_options_valid (m : UserAgentManager.t) :
  credentials_typed (UserAgentManager.config m) = true →
  media_credential_invariant (UserAgentManager.config m) = true →
  ∃ opts d lk,
    UserAgentManager.try_worker_options m = (Ok (Some opts), [])
    ∧ UserAgentManager.config m = PDict d
    ∧ assoc "liveKit" d = Some (PDict lk)
    ∧ assoc "apiKey" lk = Some (api_key opts)
    ∧ assoc "secret" lk = Some (api_secret opts)
    ∧ assoc "serverUrl" lk = Some (ws_url opts).
Proof.
  intros Ht Hv.
  unfold UserAgentManager.try_worker_options, UserAgentManager._validate_config.
  pose proof (all_livekit_typed _ Ht) as Ha. rewrite Hv in Ha.
  destruct (all_livekit (UserAgentManager.config m) required_livekit) as [b|e];
    [subst b | discriminate].
  destruct (UserAgentManager.config m) as [| | | | |d] eqn:Hc; try discriminate.
  cbn in Hv |- *.
  destruct (assoc "liveKit" d) as [[| | | | |lk]|] eqn:Hlk; try discriminate.
  cbn. unfold non_empty in Hv.
  destruct (assoc "apiKey" lk) as [a|] eqn:Ha; [|discriminate].
  destruct (assoc "secret" lk) as [s|] eqn:Hs;
    [|rewrite ?andb_false_r in Hv; discriminate].
  destruct (assoc "serverUrl" lk) as [u|] eqn:Hu;
    [|rewrite ?andb_false_r in Hv; discriminate].
  cbn. eexists {| api_key := a; api_secret := s; ws_url := u |}, d, lk.
  repeat split; done.
Qed.

Lemma try_worker_options_invalid (m : UserAgentManager.t) :
  credentials_typed (UserAgentManager.config m) = true →
  media_credential_invariant (UserAgentManager.config m) = false →
  ∀ opts l, UserAgentManager.try_worker_options m ≠ (Ok (Some opts), l).
Proof.
  intros Ht Hv opts l. unfold UserAgentManager.try_worker_options, UserAgentManager._validate_config.
  pose proof (all_livekit_typed _ Ht) as Ha. rewrite Hv in Ha.
  destruct (all_livekit (UserAgentManager.config m) required_livekit) as [b|e];
    [subst b | ]; discriminate.
Qed.

Section retry_loop.
Import UserAgentManager.
Variable m : UserAgentManager.t.
Variable is_set : nat → bool.

Lemma cwo_return (fuel p : nat) (opts : WorkerOptions) (l : list log_entry) :
  try_worker_options m = (Ok (Some opts), l) →
  is_set p = false →
  _create_worker_options (S fuel) m is_set p = Some (Some opts, 0, l).
Proof. intros Ht Hp. cbn. by rewrite Hp, Ht. Qed.

Lemma cwo_cancelled (fuel p : nat) :
  is_set p = true →
  _create_worker_options (S fuel) m is_set p = Some (None, 0, []).
Proof. intros Hp. cbn. by rewrite Hp. Qed.

Hypothesis invalid : ∀ opts l, try_worker_options m ≠ (Ok (Some opts), l).

Lemma cwo_backoff (n : nat) :
  ∀ fuel p,
    (∀ i, i < n → is_set (p + i) = false) →
    is_set (p + n) = true →
    n < fuel →
    ∃ l, _create_worker_options fuel m is_set p = Some (None, 5 * n, l).
Proof.
  induction n as [|n IH]; intros fuel p Hlt Hn Hf.
  - destruct fuel as [|fuel]; [lia|]. exists [].
    rewrite Nat.add_0_r in Hn. by apply cwo_cancelled.
  - destruct fuel as [|fuel]; [lia|].
    destruct (IH fuel (S p)) as [l Hl].
    + intros i Hi. replace (S p + i) with (p + S i) by lia. apply Hlt. lia.
    + by replace (S p + n) with (p + S n) by lia.
    + lia.
    + cbn [_create_worker_options].
      assert (Hp : is_set p = false)
        by (rewrite <- (Nat.add_0_r p); apply Hlt; lia).
      rewrite Hp.
      destruct (try_worker_options m) as [[[opts|]|e] l0] eqn:Ht.
      * by destruct (invalid opts l0).
      * rewrite Hl. cbn -[Nat.mul Nat.add].
        replace (5 * S n) with (5 + 5 * n) by lia. eauto.
      * rewrite Hl. cbn -[Nat.mul Nat.add].
        replace (5 * S n) with (5 + 5 * n) by lia. eauto.
Qed.

Lemma cwo_forever (fuel : nat) :
  ∀ p, (∀ i, is_set i = false) → _create_worker_options fuel m is_set p = None.
Proof.
  induction fuel as [|fuel IH]; intros p Hs; [reflexivity|].
  cbn [_create_worker_options]. rewrite Hs.
  destruct (try_worker_options m) as [[[opts|]|e] l0] eqn:Ht.
  - by destruct (invalid opts l0).
  - by rewrite IH.
  - by rewrite IH.
Qed.
End retry_loop.

Lemma cwo_some_inv (m : UserAgentManager.t) (is_set : nat → bool) (fuel : nat) :
  ∀ p opts slept l,
    UserAgentManager._create_worker_options fuel m is_set p = Some (Some opts, slept, l) →
    ∃ l0, UserAgentManager.try_worker_options m = (Ok (Some opts), l0).
Proof.
  induction fuel as [|fuel IH]; intros p opts slept l H; [discriminate|].
  cbn [UserAgentManager._create_worker_options] in H.
  destruct (is_set p); [discriminate|].
  destruct (UserAgentManager.try_worker_options m) as [[[o|]|e] l0] eqn:Ht.
  - inversion H; subst. eauto.
  - destruct (UserAgentManager._create_worker_options fuel m is_set (S p))
      as [[[r s] l']|] eqn:Hr; cbn in H; [|discriminate].
    inversion H; subst. apply IH in Hr. done.
  - destruct (UserAgentManager._create_worker_options fuel m is_set (S p))
      as [[[r s] l']|] eqn:Hr; cbn in H; [|discriminate].
    inversion H; subst. apply IH in Hr. done.
Qed.

(** ** The AwaitValidConfig loop *)

(** C5. For a manager whose media credentials are typed as the data model
    has them, [_create_worker_options] (a) returns worker options, built
    from the config's three credentials and without sleeping, when the
    config satisfies the media-credential invariant and the shutdown event
    is not set at the first test; (b) returns worker options only then;
    (c) with an invalid config sleeps 5 time units per re-check and returns
    no options at the first test that sees the event set; (d) with an
    invalid config and an event that is never set does not return, whatever
    the number of iterations; (e) returns no options at once when the event
    is set at the first test. *)
Theorem await_valid_config (m : UserAgentManager.t) (is_set : nat → bool) :
  credentials_typed (UserAgentManager.config m) = true →
  (media_credential_invariant (UserAgentManager.config m) = true →
   is_set 0 = false →
   ∃ opts d lk,
     (∀ fuel, UserAgentManager._create_worker_options (S fuel) m is_set 0
              = Some (Some opts, 0, []))
     ∧ UserAgentManager.config m = PDict d
     ∧ assoc "liveKit" d = Some (PDict lk)
     ∧ assoc "apiKey" lk = Some (api_key opts)
     ∧ assoc "secret" lk = Some (api_secret opts)
     ∧ assoc "serverUrl" lk = Some (ws_url opts))
  ∧ (∀ fuel opts slept l,
       UserAgentManager._create_worker_options fuel m is_set 0
       = Some (Some opts, slept, l) →
       media_credential_invariant (UserAgentManager.config m) = true)
  ∧ (media_credential_invariant (UserAgentManager.config m) = false →
     ∀ n, (∀ i, i < n → is_set i = false) → is_set n = true →
          ∀ fuel, n < fuel →
                  ∃ l, UserAgentManager._create_worker_options fuel m is_set 0
                       = Some (None, 5 * n, l))
  ∧ (media_credential_invariant (UserAgentManager.config m) = false →
     (∀ i, is_set i = false) →
     ∀ fuel, UserAgentManager._create_worker_options fuel m is_set 0 = None)
  ∧ (is_set 0 = true →
     ∀ fuel, UserAgentManager._create_worker_options (S fuel) m is_set 0
             = Some (None, 0, [])).
Proof.
  intros Ht. repeat apply conj.
  - intros Hv H0.
    destruct (try_worker_options_valid m Ht Hv) as (opts & d & lk & Htry & Hrest).
    exists opts, d, lk. split; [|exact Hrest].
    intros fuel. by apply cwo_return.
  - intros fuel opts slept l H.
    destruct (media_credential_invariant (UserAgentManager.config m)) eqn:Hv; [done|].
    apply cwo_some_inv in H as [l0 H].
    by destruct (try_worker_options_invalid m Ht Hv opts l0).
  - intros Hv n Hlt Hn fuel Hf.
    apply cwo_backoff; auto using try_worker_options_invalid.
  - intros Hv Hs fuel. apply cwo_forever; auto using try_worker_options_invalid.
  - intros H0 fuel. by apply cwo_cancelled.
Qed.

Lemma await_valid_config_witness :
  (∃ opts, UserAgentManager._create_worker_options 1
             (UserAgentManager.__init__ (PStr "n1") (config_of full_media "n1"))
             (fun _ => false) 0 = Some (Some opts, 0, []))
  ∧ (∃ l, UserAgentManager._create_worker_options 3
            (UserAgentManager.__init__ (PStr "n1") (config_of no_secret "n1"))
            (fun n => 2 <=? n) 0 = Some (None, 10, l)).
Proof.
  split.
  - destruct (await_valid_config
                (UserAgentManager.__init__ (PStr "n1") (config_of full_media "n1"))
                (fun _ => false) eq_refl) as (H & _).
    destruct (H eq_refl eq_refl) as (opts & _ & _ & Ho & _).
    exists opts. apply Ho.
  - destruct (await_valid_config
                (UserAgentManager.__init__ (PStr "n1") (config_of no_secret "n1"))
                (fun n => 2 <=? n) eq_refl) as (_ & _ & H & _).
    apply (H eq_refl 2); [|reflexivity|lia].
    intros i Hi. destruct i as [|[|i]]; [reflexivity|reflexivity|lia].
Defined.

(** ** Activation *)

Lemma stop_agent_fst (m : UserAgentManager.t) (ths : list thread) (e : option nat) :
  ∃ m' l w, UserAgentManager.stop_agent m ths e
            = (m', (UserAgentManager.stop_agent m ths e).1.1.2, l, w).
Proof.
  destruct (UserAgentManager.stop_agent m ths e) as [[[m' ths'] l] w]. cbn. eauto.
Qed.

(** What an accepted activation did: the config is stored under the key of
    the node id, the previous manager of that key, if any, was stopped, and
    a new manager with a new thread took its place. *)
Lemma set_config_accepted (req : request) (e : option nat) (st : state) :
  is_success (Service.set_config req e st).1.1 = true →
  ∃ d node_id k ths1,
    get_json req = Ok (PDict d)
    ∧ node_id = py_or (default PNone (assoc "nodeId" d)) (opt_str (x_node_id req))
    ∧ truthy node_id = true
    ∧ forallb (fun k => has_key k d) Service.required_top_level = true
    ∧ hash_key node_id = Ok k
    ∧ ths1 = match user_agents st !! k with
             | Some old => (UserAgentManager.stop_agent old (threads st) e).1.1.2
             | None => threads st
             end
    ∧ (Service.set_config req e st).1.1
      = resp_success "Config stored and agent started"
          (PDict [("status", PStr "ok"); ("nodeId", node_id)])
    ∧ (Service.set_config req e st).1.2
      = {| user_configs := <[k := PDict d]> (user_configs st);
           user_agents :=
             <[k := UserAgentManager.set_agent_thread
                      (UserAgentManager.__init__ node_id (PDict d)) (length ths1)]>
               (user_agents st);
           threads := ths1 ++ [{| thread_node := node_id; alive := true |}] |}.
Proof.
  unfold Service.set_config.
  destruct (get_json req) as [[| | | | |d]|e0]; try discriminate.
  set (node_id := py_or _ _).
  destruct (truthy node_id) eqn:Hn; [|discriminate]. cbn [negb].
  destruct (forallb _ _) eqn:Hk; [|discriminate]. cbn [negb].
  destruct (hash_key node_id) as [k|e0] eqn:Hh; [|discriminate].
  intros _. exists d, node_id, k.
  destruct (user_agents st !! k) as [old|].
  - destruct (stop_agent_fst old (threads st) e) as (m' & l & w & ->).
    eexists. repeat split; first [assumption | reflexivity].
  - eexists. repeat split; first [assumption | reflexivity].
Qed.

Lemma set_config_rejected (req : request) (e : option nat) (st : state) :
  is_success (Service.set_config req e st).1.1 = false →
  is_failure (Service.set_config req e st).1.1 = true
  ∧ (Service.set_config req e st).1.2 = st.
Proof.
  unfold Service.set_config.
  destruct (get_json req) as [[| | | | |d]|e0]; try (intros _; split; reflexivity).
  set (node_id := py_or _ _).
  destruct (truthy node_id) eqn:Hn; [|intros _; split; reflexivity]. cbn [negb].
  destruct (forallb _ _) eqn:Hk; [|intros _; split; reflexivity]. cbn [negb].
  destruct (hash_key node_id) as [k|e0] eqn:Hh; [|intros _; split; reflexivity].
  destruct (user_agents st !! k) as [old|].
  - destruct (stop_agent_fst old (threads st) e) as (m' & l & w & ->). discriminate.
  - discriminate.
Qed.

(** C10. An activation request whose body is not an object holding all of
    [liveKit], [stt], [llm] and [tts] is answered with a failure and leaves
    the registries and the thread table exactly as they were. *)
Theorem set_config_missing_keys_atomic (req : request) (e : option nat) (st : state) :
  has_top_level_keys req = false →
  is_failure (Service.set_config req e st).1.1 = true
  ∧ (Service.set_config req e st).1.2 = st.
Proof.
  intros Hk. apply set_config_rejected.
  destruct (is_success _) eqn:Hs; [|reflexivity].
  apply set_config_accepted in Hs as (d & ? & ? & ? & Hj & _ & _ & Hall & _).
  unfold has_top_level_keys in Hk. rewrite Hj in Hk. congruence.
Qed.

Lemma set_config_accepts (req : request) (e : option nat) (st : state)
    (d : list (string * pyval)) (k : key) :
  get_json req = Ok (PDict d) →
  truthy (py_or (default PNone (assoc "nodeId" d)) (opt_str (x_node_id req))) = true →
  forallb (fun k => has_key k d) Service.required_top_level = true →
  hash_key (py_or (default PNone (assoc "nodeId" d)) (opt_str (x_node_id req))) = Ok k →
  is_success (Service.set_config req e st).1.1 = true.
Proof.
  intros Hj Hn Hk Hh. unfold Service.set_config. rewrite Hj, Hn, Hk, Hh. cbn [negb].
  destruct (user_agents st !! k) as [old|].
  - by destruct (stop_agent_fst old (threads st) e) as (m' & l & w & ->).
  - reflexivity.
Qed.

Lemma get_config_stored (q : request) (st : state) (n : string) (cfg : pyval) :
  request_node_id q = PStr n →
  truthy (PStr n) = true →
  user_configs st !! KStr n = Some cfg →
  routes.get_config q st
  = resp_success "Configuration retrieved successfully"
      (PDict [("config", cfg); ("nodeId", PStr n)]).
Proof.
  intros Hq Hn Hc. unfold routes.get_config, routes.missing_node_id, Service.get_config.
  rewrite Hq, Hn. cbn [negb]. by rewrite Hc.
Qed.

Lemma get_config_unknown (q : request) (st : state) (n : string) :
  request_node_id q = PStr n →
  truthy (PStr n) = true →
  user_configs st !! KStr n = None →
  routes.get_config q st
  = resp_success "Configuration retrieved successfully"
      (PDict [("config", PDict []); ("nodeId", PStr n)]).
Proof.
  intros Hq Hn Hc. unfold routes.get_config, routes.missing_node_id, Service.get_config.
  rewrite Hq, Hn. cbn [negb]. by rewrite Hc.
Qed.

(** An accepted activation names its node in the response; the config is
    then stored under that node. *)
Lemma set_config_stores (req : request) (e : option nat) (st : state) (n : string) :
  (Service.set_config req e st).1.1
  = resp_success "Config stored and agent started"
      (PDict [("status", PStr "ok"); ("nodeId", PStr n)]) →
  truthy (PStr n) = true
  ∧ ∃ d m, get_json req = Ok (PDict d)
           ∧ user_configs (Service.set_config req e st).1.2 !! KStr n = Some (PDict d)
           ∧ user_agents (Service.set_config req e st).1.2 !! KStr n = Some m.
Proof.
  intros Hr.
  assert (Hs : is_success (Service.set_config req e st).1.1 = true)
    by (rewrite Hr; reflexivity).
  apply set_config_accepted in Hs
    as (d & node_id & k & ths1 & Hj & _ & Hn & _ & Hh & _ & Hr' & Hst).
  rewrite Hr in Hr'. injection Hr' as <-. cbn in Hh. injection Hh as <-.
  split; [exact Hn|]. eexists d, _. rewrite Hst. cbn.
  by rewrite !lookup_insert_eq.
Qed.

(** C6. When activation accepts a request for node [n], whatever was stored
    for [n] before, the next [get-config] for [n] answers with exactly the
    body that was submitted. *)
Theorem activate_then_query_roundtrip
    (req q : request) (e : option nat) (st : state) (data : pyval) (n : string) :
  get_json req = Ok data →
  (Service.set_config req e st).1.1
  = resp_success "Config stored and agent started"
      (PDict [("status", PStr "ok"); ("nodeId", PStr n)]) →
  request_node_id q = PStr n →
  routes.get_config q (Service.set_config req e st).1.2
  = resp_success "Configuration retrieved successfully"
      (PDict [("config", data); ("nodeId", PStr n)]).
Proof.
  intros Hj Hr Hq.
  destruct (set_config_stores req e st n Hr) as (Hn & d & m & Hj' & Hc & _).
  rewrite Hj in Hj'. injection Hj' as ->.
  by apply get_config_stored.
Qed.

Lemma activate_then_query_roundtrip_witness :
  routes.get_config (query "n1")
    (Service.set_config (activation (config_of full_media "n1")) (Some 1)
       (Service.set_config (activation (config_of no_url "n1")) None empty_state).1.2).1.2
  = resp_success "Configuration retrieved successfully"
      (PDict [("config", config_of full_media "n1"); ("nodeId", PStr "n1")]).
Proof.
  apply (activate_then_query_roundtrip
           (activation (config_of full_media "n1")) (query "n1") (Some 1)
           (Service.set_config (activation (config_of no_url "n1")) None empty_state).1.2
           (config_of full_media "n1") "n1");
    vm_compute; reflexivity.
Defined.

Lemma set_config_missing_keys_atomic_witness :
  is_failure (Service.set_config (activation missing_tts) None activated).1.1 = true
  ∧ (Service.set_config (activation missing_tts) None activated).1.2 = activated.
Proof.
  apply (set_config_missing_keys_atomic (activation missing_tts) None activated).
  reflexivity.
Defined.

(** ** Activation and the media-credential invariant *)

(** C1, as stated, fails: a config without [liveKit.secret] violates the
    invariant, yet activation answers success and [get-config] returns the
    config instead of the empty structure. *)
Lemma invalid_credentials_are_stored :
  media_credential_invariant (config_of no_secret "n1") = false
  ∧ is_failure
      (Service.set_config (activation (config_of no_secret "n1")) None empty_state).1.1
    = false
  ∧ is_success
      (Service.set_config (activation (config_of no_secret "n1")) None empty_state).1.1
    = true
  ∧ routes.get_config (query "n1")
      (Service.set_config (activation (config_of no_secret "n1")) None empty_state).1.2
    = resp_success "Configuration retrieved successfully"
        (PDict [("config", config_of no_secret "n1"); ("nodeId", PStr "n1")]).
Proof. vm_compute. repeat split; reflexivity. Qed.

(** C1, amended. Activation checks the presence of the four top-level keys
    and nothing inside them: a request that names a node and carries the
    four keys is accepted although its config violates the media-credential
    invariant, and the next [get-config] for the node returns that config. *)
Theorem set_config_stores_invalid_credentials
    (req q : request) (e : option nat) (st : state)
    (d : list (string * pyval)) (n : string) :
  get_json req = Ok (PDict d) →
  py_or (default PNone (assoc "nodeId" d)) (opt_str (x_node_id req)) = PStr n →
  n ≠ "" →
  has_top_level_keys req = true →
  media_credential_invariant (PDict d) = false →
  request_node_id q = PStr n →
  is_success (Service.set_config req e st).1.1 = true
  ∧ routes.get_config q (Service.set_config req e st).1.2
    = resp_success "Configuration retrieved successfully"
        (PDict [("config", PDict d); ("nodeId", PStr n)]).
Proof.
  intros Hj Hn Hne Hk _ Hq.
  assert (Ht : truthy (PStr n) = true).
  { cbn. destruct (String.eqb_spec n ""); [done|reflexivity]. }
  unfold has_top_level_keys in Hk. rewrite Hj in Hk.
  assert (Hs : is_success (Service.set_config req e st).1.1 = true).
  { apply (set_config_accepts req e st d (KStr n)); rewrite ?Hn; auto. }
  split; [exact Hs|].
  apply set_config_accepted in Hs
    as (d' & node_id & k & ths1 & Hj' & Hn' & _ & _ & Hh & _ & _ & Hst).
  rewrite Hj in Hj'. injection Hj' as <-. rewrite Hn in Hn'. subst node_id.
  injection Hh as <-.
  apply get_config_stored; auto. rewrite Hst. cbn. by rewrite lookup_insert_eq.
Qed.

Lemma set_config_stores_invalid_credentials_witness :
  is_success
    (Service.set_config (activation (config_of no_secret "n1")) None activated).1.1 = true
  ∧ routes.get_config (query "n1")
      (Service.set_config (activation (config_of no_secret "n1")) None activated).1.2
    = resp_success "Configuration retrieved successfully"
        (PDict [("config", config_of no_secret "n1"); ("nodeId", PStr "n1")]).
Proof.
  apply (set_config_stores_invalid_credentials
           (activation (config_of no_secret "n1")) (query "n1") None activated
           _ "n1"); try reflexivity.
  discriminate.
Defined.

(** ** Cleanup *)

Lemma cleanup_node_removes (n : string) (e : option nat) (st : state) :
  (Service.cleanup_node n e st).1.1 = true
  ∧ user_configs (Service.cleanup_node n e st).1.2 !! KStr n = None
  ∧ user_agents (Service.cleanup_node n e st).1.2 !! KStr n = None.
Proof.
  unfold Service.cleanup_node.
  destruct (user_agents st !! KStr n) as [m|] eqn:Ha.
  - destruct (stop_agent_fst m (threads st) e) as (m' & l & w & ->). cbn.
    repeat split; [|apply lookup_delete_eq].
    destruct (user_configs st !! KStr n) eqn:Hc; [apply lookup_delete_eq|exact Hc].
  - cbn. repeat split; [|exact Ha].
    destruct (user_configs st !! KStr n) eqn:Hc; [apply lookup_delete_eq|exact Hc].
Qed.

Lemma cleanup_user_reports (q : request) (e : option nat) (st : state) (n : string) :
  request_node_id q = PStr n →
  truthy (PStr n) = true →
  routes.cleanup_user q e st
  = (resp_success "User resources cleaned up successfully" (PDict [("nodeId", PStr n)]),
     (Service.cleanup_node n e st).1.2).
Proof.
  intros Hq Hn. unfold routes.cleanup_user. rewrite Hq, Hn. cbn [negb].
  pose proof (cleanup_node_removes n e st) as (Ht & _).
  destruct (Service.cleanup_node n e st) as [[b st'] l]. cbn in Ht |- *. by subst b.
Qed.

(** C2, as stated, fails: on the empty registry nothing exists for "n1",
    yet [cleanup_node] returns [True] and the route answers success. *)
Lemma cleanup_of_unknown_node_succeeds :
  user_configs empty_state !! KStr "n1" = None
  ∧ user_agents empty_state !! KStr "n1" = None
  ∧ (Service.cleanup_node "n1" None empty_state).1.1 = true
  ∧ is_failure (routes.cleanup_user (query "n1") None empty_state).1 = false
  ∧ is_success (routes.cleanup_user (query "n1") None empty_state).1 = true.
Proof. vm_compute. repeat split; reflexivity. Qed.

(** C2, amended. [cleanup_node] returns [True] for every node, whether or
    not a config or a manager existed for it, and the route reports success
    to the caller; afterwards neither a config nor a manager is registered
    for the node. *)
Theorem cleanup_always_succeeds (q : request) (e : option nat) (st : state) (n : string) :
  request_node_id q = PStr n →
  n ≠ "" →
  (Service.cleanup_node n e st).1.1 = true
  ∧ (routes.cleanup_user q e st).1
    = resp_success "User resources cleaned up successfully" (PDict [("nodeId", PStr n)])
  ∧ user_configs (routes.cleanup_user q e st).2 !! KStr n = None
  ∧ user_agents (routes.cleanup_user q e st).2 !! KStr n = None.
Proof.
  intros Hq Hne.
  assert (Ht : truthy (PStr n) = true).
  { cbn. destruct (String.eqb_spec n ""); [done|reflexivity]. }
  rewrite (cleanup_user_reports q e st n Hq Ht). cbn.
  pose proof (cleanup_node_removes n e st) as (H1 & H2 & H3). auto.
Qed.

Lemma cleanup_always_succeeds_witness :
  (Service.cleanup_node "n2" None activated).1.1 = true
  ∧ (routes.cleanup_user (query "n2") None activated).1
    = resp_success "User resources cleaned up successfully" (PDict [("nodeId", PStr "n2")])
  ∧ user_configs (routes.cleanup_user (query "n2") None activated).2 !! KStr "n2" = None
  ∧ user_agents (routes.cleanup_user (query "n2") None activated).2 !! KStr "n2" = None.
Proof.
  apply (cleanup_always_succeeds (query "n2") None activated "n2");
    [reflexivity | discriminate].
Defined.

Lemma health_check_unknown (q : request) (st : state) (n : string) :
  request_node_id q = PStr n →
  truthy (PStr n) = true →
  user_configs st !! KStr n = None →
  user_agents st !! KStr n = None →
  routes.health_check q st
  = resp_success "Health check completed"
      (PDict [("status", PStr "ok");
              ("nodeId", PStr n);
              ("services", PDict [("config", PBool false);
                                  ("token", PBool true);
                                  ("agent", PNone)]);
              ("config_available", PBool false)]).
Proof.
  intros Hq Hn Hc Ha. unfold routes.health_check, Service.health_check.
  rewrite Hq, Hn, Hc, Ha. reflexivity.
Qed.

(** C7. After a node was activated and then cleaned up, whatever the joined
    worker did, neither its config nor its manager is registered:
    [get-config] answers with the empty structure, and [health] reports the
    config as absent ([False]) and the agent as not running: the value is
    the [None] that the conjunction over the missing manager yields, whose
    truth value is false. *)
Theorem cleanup_after_activation
    (req q : request) (e1 e2 : option nat) (st : state) (n : string) :
  (Service.set_config req e1 st).1.1
  = resp_success "Config stored and agent started"
      (PDict [("status", PStr "ok"); ("nodeId", PStr n)]) →
  request_node_id q = PStr n →
  let st1 := (Service.set_config req e1 st).1.2 in
  let st2 := (Service.cleanup_node n e2 st1).1.2 in
  is_Some (user_configs st1 !! KStr n)
  ∧ is_Some (user_agents st1 !! KStr n)
  ∧ (Service.cleanup_node n e2 st1).1.1 = true
  ∧ user_configs st2 !! KStr n = None
  ∧ user_agents st2 !! KStr n = None
  ∧ routes.get_config q st2
    = resp_success "Configuration retrieved successfully"
        (PDict [("config", PDict []); ("nodeId", PStr n)])
  ∧ routes.health_check q st2
    = resp_success "Health check completed"
        (PDict [("status", PStr "ok");
                ("nodeId", PStr n);
                ("services", PDict [("config", PBool false);
                                    ("token", PBool true);
                                    ("agent", PNone)]);
                ("config_available", PBool false)])
  ∧ truthy (Service.agent_running (user_agents st2 !! KStr n) (threads st2)) = false.
Proof.
  intros Hr Hq st1 st2.
  destruct (set_config_stores req e1 st n Hr) as (Hn & d & m & _ & Hc & Ha).
  pose proof (cleanup_node_removes n e2 st1) as (H1 & H2 & H3).
  fold st1 in Hc, Ha. fold st2 in H2, H3.
  repeat split; eauto.
  - by apply get_config_unknown.
  - by apply health_check_unknown.
  - by rewrite H3.
Qed.

Lemma cleanup_after_activation_witness :
  routes.health_check (query "n1") (Service.cleanup_node "n1" None activated).1.2
  = resp_success "Health check completed"
      (PDict [("status", PStr "ok");
              ("nodeId", PStr "n1");
              ("services", PDict [("config", PBool false);
                                  ("token", PBool true);
                                  ("agent", PNone)]);
              ("config_available", PBool false)]).
Proof.
  apply (cleanup_after_activation
           (activation (config_of full_media "n1")) (query "n1") None None
           empty_state "n1"); reflexivity.
Defined.

(** ** Token issuance *)

(** C9. For a node whose stored config has a [liveKit] object, [get_token]
    looks at [apiKey] and [secret] only: when both are truthy (and the JWT
    library signs), the answer is a success carrying the stored [serverUrl]
    as it is, empty or missing included; when one of them is not, the
    answer is a failure. *)
Theorem get_token_ignores_server_url
    (to_jwt : pyval → pyval → string → string → result string) (uuid4 : string)
    (q : request) (st : state) (n : string) (d lk : list (string * pyval)) :
  request_node_id q = PStr n →
  n ≠ "" →
  user_configs st !! KStr n = Some (PDict d) →
  assoc "liveKit" d = Some (PDict lk) →
  (∀ name room, ∃ t,
      to_jwt (default PNone (assoc "apiKey" lk)) (default PNone (assoc "secret" lk))
        name room = Ok t) →
  if truthy (default PNone (assoc "apiKey" lk))
     && truthy (default PNone (assoc "secret" lk))
  then ∃ t room,
      (Service.get_token to_jwt uuid4 q st).1
      = resp_success "Token generated successfully"
          (PDict [("token", PStr t);
                  ("room", PStr room);
                  ("serverUrl", default PNone (assoc "serverUrl" lk));
                  ("nodeId", PStr n)])
  else is_failure (Service.get_token to_jwt uuid4 q st).1 = true.
Proof.
  intros Hq Hne Hc Hlk Hjwt.
  assert (Ht : truthy (PStr n) = true).
  { cbn. destruct (String.eqb_spec n ""); [done|reflexivity]. }
  assert (Hd : truthy (PDict d) = true) by (destruct d; [discriminate|reflexivity]).
  unfold Service.get_token, Service._get_livekit_config_for_node.
  rewrite Hq, Ht, Hc, Hd. cbn. rewrite Hlk. cbn.
  destruct (truthy (default PNone (assoc "apiKey" lk))) eqn:Ha;
    destruct (truthy (default PNone (assoc "secret" lk))) eqn:Hs;
    cbn; try reflexivity.
  rewrite Ha, Hs. cbn.
  match goal with
  | |- context [to_jwt ?a ?s ?name ?room] =>
      destruct (Hjwt name room) as [t Hj]; rewrite Hj; exists t, room
  end.
  reflexivity.
Qed.

Lemma get_token_ignores_server_url_witness :
  ∃ t room,
    (Service.get_token (fun _ _ name room => Ok ("jwt:" +:+ name +:+ ":" +:+ room))
       "0123456789abcdef" (query "n1")
       (Service.set_config (activation (config_of no_url "n1")) None empty_state).1.2).1
    = resp_success "Token generated successfully"
        (PDict [("token", PStr t);
                ("room", PStr room);
                ("serverUrl", PStr "");
                ("nodeId", PStr "n1")]).
Proof.
  apply (get_token_ignores_server_url
           (fun _ _ name room => Ok ("jwt:" +:+ name +:+ ":" +:+ room))
           "0123456789abcdef" (query "n1")
           (Service.set_config (activation (config_of no_url "n1")) None empty_state).1.2
           "n1" (match config_of no_url "n1" with PDict d => d | _ => [] end) no_url);
    try reflexivity; [discriminate | eauto].
Defined.

(** ** Provider initialisation *)

Section provider_facts.
Import VoiceAssistant.
Variable imported : string → bool.
Variable unicode_lower : string → string.
Variable raises : string → provider_kind → pyval → option exn.

Lemma get_plugin_missing (name : string) :
  In name ["deepgram"; "azure"; "openai"; "anthropic"; "elevenlabs"; "google"] →
  imported name = false →
  _get_plugin imported unicode_lower name = (None, [(WARNING, PluginNotAvailable name)]).
Proof.
  intros Hin Hi. unfold _get_plugin, OPTIONAL_PLUGINS.
  cbn in Hin. destruct Hin as [<-|[<-|[<-|[<-|[<-|[<-|[]]]]]]];
    cbn; rewrite ?Hi; reflexivity.
Qed.

Lemma get_plugin_present (name : string) :
  In name ["deepgram"; "azure"; "openai"; "anthropic"; "elevenlabs"; "google"] →
  imported name = true →
  _get_plugin imported unicode_lower name = (Some name, []).
Proof.
  intros Hin Hi. unfold _get_plugin, OPTIONAL_PLUGINS.
  cbn in Hin. destruct Hin as [<-|[<-|[<-|[<-|[<-|[<-|[]]]]]]];
    cbn; rewrite ?Hi; reflexivity.
Qed.

Lemma assign_built (k : provider_kind) (plugin : string) (api_key : pyval) (a : t)
    (l : list log_entry) :
  assign raises k plugin api_key a l = (built raises k plugin api_key a, l).
Proof. unfold assign, construct, built. by destruct (raises plugin k api_key). Qed.

Lemma from_plugin_built (k : provider_kind) (name : string) (api_key : pyval) (a : t) :
  In name ["deepgram"; "azure"; "openai"; "anthropic"; "elevenlabs"; "google"] →
  from_plugin imported unicode_lower raises k name api_key a
  = if imported name then (built raises k name api_key a, [])
    else (Ok a, [(WARNING, PluginNotAvailable name)]).
Proof.
  intros Hin. unfold from_plugin. destruct (imported name) eqn:Hi.
  - rewrite (get_plugin_present name Hin Hi). apply assign_built.
  - by rewrite (get_plugin_missing name Hin Hi).
Qed.

(** Each initialiser, once its section was read: the constructor it
    calls, if any, and what it logs. *)
Lemma initialize_kind_spec (k : provider_kind) (a : t) (p : string) (key : pyval) :
  provider_and_key unicode_lower a (section_of k) = Ok (p, key) →
  initialize_kind imported unicode_lower raises k a
  = (match constructor_called imported k p with
     | Some plugin => built raises k plugin key a
     | None => Ok a
     end,
     (INFO, InitializingProvider k p (node_id a))
       :: provider_warnings imported k p (node_id a)).
Proof.
  intros Hp.
  destruct k; cbn in Hp |- *;
    unfold _initialize_stt, _initialize_llm, _initialize_tts,
      constructor_called, provider_warnings, is_supported, plugin_of;
    rewrite Hp; cbn [supported existsb];
    repeat match goal with
           | |- context [String.eqb p ?s] =>
               let E := fresh "E" in
               destruct (String.eqb p s) eqn:E;
               [apply String.eqb_eq in E; subst p; cbn|]
           end;
    rewrite ?assign_built, ?from_plugin_built by (cbn; tauto);
    cbn;
    repeat match goal with
           | |- context [imported ?s] => destruct (imported s)
           end;
    reflexivity.
Qed.

Lemma initialize_kind_raises (k : provider_kind) (a : t) (e : exn) :
  provider_and_key unicode_lower a (section_of k) = Raise e →
  initialize_kind imported unicode_lower raises k a = (Raise e, []).
Proof.
  intros H. destruct k; cbn in H |- *;
    unfold _initialize_stt, _initialize_llm, _initialize_tts; by rewrite H.
Qed.

Lemma set_adapter_frame (k : provider_kind) (a : t) (x : adapter) :
  config (set_adapter k a x) = config a
  ∧ node_id (set_adapter k a x) = node_id a
  ∧ _initialized (set_adapter k a x) = _initialized a
  ∧ get_adapter k (set_adapter k a x) = Some x
  ∧ ∀ k', k' ≠ k → get_adapter k' (set_adapter k a x) = get_adapter k' a.
Proof.
  repeat split; try (by destruct k).
  intros k' Hk. destruct k, k'; done.
Qed.

(** An initialiser that returns read its section, called no constructor
    that raises, and touched at most its own adapter. *)
Lemma initialize_kind_ok_inv (k : provider_kind) (a a' : t) (l : list log_entry) :
  initialize_kind imported unicode_lower raises k a = (Ok a', l) →
  ∃ p key,
    provider_and_key unicode_lower a (section_of k) = Ok (p, key)
    ∧ (∀ plugin, constructor_called imported k p = Some plugin →
                 raises plugin k key = None)
    ∧ l = (INFO, InitializingProvider k p (node_id a))
            :: provider_warnings imported k p (node_id a)
    ∧ get_adapter k a'
      = match constructor_called imported k p with
        | Some plugin => Some (Adapter plugin k key)
        | None => get_adapter k a
        end
    ∧ config a' = config a ∧ node_id a' = node_id a
    ∧ _initialized a' = _initialized a
    ∧ ∀ k', k' ≠ k → get_adapter k' a' = get_adapter k' a.
Proof.
  intros H.
  destruct (provider_and_key unicode_lower a (section_of k)) as [[p key]|e] eqn:Hp;
    [|by rewrite (initialize_kind_raises k a e Hp) in H].
  rewrite (initialize_kind_spec k a p key Hp) in H.
  exists p, key. split; [reflexivity|].
  destruct (constructor_called imported k p) as [plugin|].
  - unfold built in H. destruct (raises plugin k key) eqn:Hr; [discriminate|].
    injection H as <- <-.
    destruct (set_adapter_frame k a (Adapter plugin k key)) as (? & ? & ? & ? & ?).
    repeat split; try assumption. by intros ? [= <-].
  - injection H as <- <-. repeat split; try reflexivity. intros ? [=].
Qed.

Lemma initialize_kind_ok (k : provider_kind) (a : t) (p : string) (key : pyval) :
  provider_and_key unicode_lower a (section_of k) = Ok (p, key) →
  (∀ plugin, constructor_called imported k p = Some plugin →
             raises plugin k key = None) →
  ∃ a', initialize_kind imported unicode_lower raises k a
        = (Ok a', (INFO, InitializingProvider k p (node_id a))
                    :: provider_warnings imported k p (node_id a)).
Proof.
  intros Hp Hr. rewrite (initialize_kind_spec k a p key Hp).
  destruct (constructor_called imported k p) as [plugin|]; [|eauto].
  unfold built. rewrite (Hr plugin eq_refl). eauto.
Qed.

Lemma initialize_kind_fails (k : provider_kind) (a : t) (p : string) (key : pyval)
    (plugin : string) (e : exn) :
  provider_and_key unicode_lower a (section_of k) = Ok (p, key) →
  constructor_called imported k p = Some plugin →
  raises plugin k key = Some e →
  initialize_kind imported unicode_lower raises k a
  = (Raise e, (INFO, InitializingProvider k p (node_id a))
                :: provider_warnings imported k p (node_id a)).
Proof.
  intros Hp Hc Hr. rewrite (initialize_kind_spec k a p key Hp), Hc.
  unfold built. by rewrite Hr.
Qed.

Lemma provider_and_key_config (a a' : t) (s : string) :
  config a' = config a →
  provider_and_key unicode_lower a' s = provider_and_key unicode_lower a s.
Proof. intros H. unfold provider_and_key. by rewrite H. Qed.

(** [initialize] over a config that passes validation, as the three
    initialisers in turn. *)
Lemma initialize_steps (a : t) :
  truthy (config a) = true →
  all_livekit (config a) required_livekit = Ok true →
  initialize imported unicode_lower raises a
  = match initialize_kind imported unicode_lower raises STT a with
    | (Raise e, l1) =>
        (false, set_initialized a false,
         l1 ++ [(ERROR, InitializationFailed (node_id a) e)])
    | (Ok a1, l1) =>
        match initialize_kind imported unicode_lower raises LLM a1 with
        | (Raise e, l2) =>
            (false, set_initialized a1 false,
             (l1 ++ l2) ++ [(ERROR, InitializationFailed (node_id a1) e)])
        | (Ok a2, l2) =>
            match initialize_kind imported unicode_lower raises TTS a2 with
            | (Raise e, l3) =>
                (false, set_initialized a2 false,
                 (l1 ++ l2 ++ l3) ++ [(ERROR, InitializationFailed (node_id a2) e)])
            | (Ok a3, l3) =>
                (true, set_initialized a3 true,
                 l1 ++ l2 ++ l3 ++ [(INFO, AssistantInitialized (node_id a))])
            end
        end
    end.
Proof.
  intros Ht Hv. unfold initialize, _validate_config. rewrite Ht, Hv. reflexivity.
Qed.

Lemma get_adapter_set_initialized (k : provider_kind) (a : t) (b : bool) :
  get_adapter k (set_initialized a b) = get_adapter k a.
Proof. by destruct k. Qed.

Lemma initialize_validates (a a' : t) (l : list log_entry) :
  truthy (config a) = true →
  initialize imported unicode_lower raises a = (true, a', l) →
  all_livekit (config a) required_livekit = Ok true.
Proof.
  intros Ht. unfold initialize, _validate_config. rewrite Ht. cbn [negb].
  by destruct (all_livekit (config a) required_livekit) as [[|]|].
Qed.

(** When [initialize] returns [True], every section was read, no
    constructor that was called raised, and each adapter is the one its
    initialiser built, or the one it had when the plugin is missing. *)
Lemma initialize_true_inv (a a' : t) (l : list log_entry) :
  truthy (config a) = true →
  initialize imported unicode_lower raises a = (true, a', l) →
  config a' = config a ∧ node_id a' = node_id a ∧ _initialized a' = true
  ∧ ∀ k, ∃ p key,
      provider_and_key unicode_lower a (section_of k) = Ok (p, key)
      ∧ (∀ plugin, constructor_called imported k p = Some plugin →
                   raises plugin k key = None)
      ∧ get_adapter k a'
        = match constructor_called imported k p with
          | Some plugin => Some (Adapter plugin k key)
          | None => get_adapter k a
          end
      ∧ ∀ w, In w (provider_warnings imported k p (node_id a)) → In w l.
Proof.
  intros Ht H. pose proof (initialize_validates a a' l Ht H) as Hv.
  rewrite (initialize_steps a Ht Hv) in H.
  destruct (initialize_kind imported unicode_lower raises STT a)
    as [[a1|e1] l1] eqn:E1; [|discriminate].
  destruct (initialize_kind imported unicode_lower raises LLM a1)
    as [[a2|e2] l2] eqn:E2; [|discriminate].
  destruct (initialize_kind imported unicode_lower raises TTS a2)
    as [[a3|e3] l3] eqn:E3; [|discriminate].
  injection H as <- <-.
  destruct (initialize_kind_ok_inv STT a a1 l1 E1)
    as (p1 & k1 & P1 & R1 & -> & G1 & C1 & N1 & _ & F1).
  destruct (initialize_kind_ok_inv LLM a1 a2 l2 E2)
    as (p2 & k2 & P2 & R2 & -> & G2 & C2 & N2 & _ & F2).
  destruct (initialize_kind_ok_inv TTS a2 a3 l3 E3)
    as (p3 & k3 & P3 & R3 & -> & G3 & C3 & N3 & _ & F3).
  rewrite (provider_and_key_config a a1 _ C1) in P2.
  rewrite (provider_and_key_config a1 a2 _ C2),
    (provider_and_key_config a a1 _ C1) in P3.
  rewrite N2, N1. rewrite N1 in *.
  split; [cbn; congruence|]. split; [cbn; congruence|]. split; [reflexivity|].
  intros k. rewrite get_adapter_set_initialized. destruct k.
  - exists p1, k1. repeat split; try assumption.
    + rewrite (F3 STT), (F2 STT) by done. exact G1.
    + intros w Hw. cbn. right. apply in_or_app. by left.
  - exists p2, k2. repeat split; try assumption.
    + rewrite (F3 LLM) by done. rewrite G2. by rewrite (F1 LLM).
    + intros w Hw. cbn. right. apply in_or_app. right. cbn. right.
      apply in_or_app. by left.
  - exists p3, k3. repeat split; try assumption.
    + rewrite G3. by rewrite (F2 TTS), (F1 TTS).
    + intros w Hw. cbn. right. apply in_or_app. right. cbn. right.
      apply in_or_app. right. cbn. right. apply in_or_app. by left.
Qed.

(** With a valid config, three readable sections and no constructor
    raising on them, [initialize] returns [True]. *)
Lemma initialize_true (a : t) :
  truthy (config a) = true →
  all_livekit (config a) required_livekit = Ok true →
  (∀ k, ∃ p key,
      provider_and_key unicode_lower a (section_of k) = Ok (p, key)
      ∧ ∀ plugin, constructor_called imported k p = Some plugin →
                  raises plugin k key = None) →
  ∃ a' l, initialize imported unicode_lower raises a = (true, a', l).
Proof.
  intros Ht Hv Hall. rewrite (initialize_steps a Ht Hv).
  destruct (Hall STT) as (p1 & k1 & P1 & R1).
  destruct (initialize_kind_ok STT a p1 k1 P1 R1) as (a1 & E1). rewrite E1.
  destruct (initialize_kind_ok_inv STT a a1 _ E1) as (_ & _ & _ & _ & _ & _ & C1 & _).
  destruct (Hall LLM) as (p2 & k2 & P2 & R2).
  rewrite <- (provider_and_key_config a a1 _ C1) in P2.
  destruct (initialize_kind_ok LLM a1 p2 k2 P2 R2) as (a2 & E2). rewrite E2.
  destruct (initialize_kind_ok_inv LLM a1 a2 _ E2) as (_ & _ & _ & _ & _ & _ & C2 & _).
  destruct (Hall TTS) as (p3 & k3 & P3 & R3).
  rewrite <- (provider_and_key_config a a1 _ C1),
    <- (provider_and_key_config a1 a2 _ C2) in P3.
  destruct (initialize_kind_ok TTS a2 p3 k3 P3 R3) as (a3 & E3). rewrite E3.
  eauto.
Qed.

(** [initialize] never changes the config or the node. *)
Lemma initialize_frame (a : t) :
  config (initialize imported unicode_lower raises a).1.2 = config a
  ∧ node_id (initialize imported unicode_lower raises a).1.2 = node_id a.
Proof.
  destruct (truthy (config a)) eqn:Ht;
    [|unfold initialize; rewrite Ht; by cbn].
  destruct (all_livekit (config a) required_livekit) as [[|]|e] eqn:Hv;
    [|unfold initialize, _validate_config; rewrite Ht, Hv; by cbn..].
  rewrite (initialize_steps a Ht Hv).
  destruct (initialize_kind imported unicode_lower raises STT a)
    as [[a1|e1] l1] eqn:E1; [|by cbn].
  destruct (initialize_kind_ok_inv STT a a1 l1 E1)
    as (_ & _ & _ & _ & _ & _ & C1 & N1 & _).
  destruct (initialize_kind imported unicode_lower raises LLM a1)
    as [[a2|e2] l2] eqn:E2; [|cbn; by split].
  destruct (initialize_kind_ok_inv LLM a1 a2 l2 E2)
    as (_ & _ & _ & _ & _ & _ & C2 & N2 & _).
  destruct (initialize_kind imported unicode_lower raises TTS a2)
    as [[a3|e3] l3] eqn:E3; [|cbn; split; congruence].
  destruct (initialize_kind_ok_inv TTS a2 a3 l3 E3)
    as (_ & _ & _ & _ & _ & _ & C3 & N3 & _).
  cbn. split; congruence.
Qed.

(** Without the three credentials [initialize] stops before the
    initialisers. *)
Lemma initialize_invalid (a : t) :
  truthy (config a) = true →
  all_livekit (config a) required_livekit ≠ Ok true →
  (initialize imported unicode_lower raises a).1.1 = false
  ∧ ∀ k, get_adapter k (initialize imported unicode_lower raises a).1.2
         = get_adapter k a.
Proof.
  intros Ht Hv. unfold initialize, _validate_config. rewrite Ht. cbn [negb].
  destruct (all_livekit (config a) required_livekit) as [[|]|e]; [done|..];
    cbn; (split; [reflexivity|]); intros k; by destruct k.
Qed.
End provider_facts.

(** C8. In each of [_initialize_stt], [_initialize_llm] and
    [_initialize_tts], for the lower-cased provider key and the api key
    read from the section of the config. A key the initialiser has no
    branch for logs the unsupported-provider warning and calls the groq
    constructor of that class with the section's api key: when the
    constructor returns, the adapter of that class is the groq one and
    nothing else of the assistant changes; when it raises, the initialiser
    raises the same after the warning. A key of an optional plugin that was
    not imported logs the plugin warning, calls no constructor and leaves
    the assistant as it is; and then [initialize], over a valid config
    whose two other sections are readable and whose two other constructors
    do not raise, still runs to the end and returns [True] with that
    adapter as it was (unset on a new assistant). *)
Theorem provider_fallback_and_skip
    (imported : string → bool) (unicode_lower : string → string)
    (raises : string → provider_kind → pyval → option exn)
    (a : VoiceAssistant.t) (k : provider_kind)
    (provider : string) (api_key : pyval) :
  VoiceAssistant.provider_and_key unicode_lower a (section_of k)
  = Ok (provider, api_key) →
  (is_supported k provider = false →
   (raises "groq" k api_key = None →
    ∃ a',
      initialize_kind imported unicode_lower raises k a
      = (Ok a',
         [(INFO, InitializingProvider k provider (VoiceAssistant.node_id a));
          (WARNING, UnsupportedProvider k provider (VoiceAssistant.node_id a))])
      ∧ VoiceAssistant.get_adapter k a' = Some (Adapter "groq" k api_key)
      ∧ (∀ k', k' ≠ k →
               VoiceAssistant.get_adapter k' a' = VoiceAssistant.get_adapter k' a)
      ∧ VoiceAssistant.config a' = VoiceAssistant.config a
      ∧ VoiceAssistant.node_id a' = VoiceAssistant.node_id a
      ∧ VoiceAssistant._initialized a' = VoiceAssistant._initialized a)
   ∧ (∀ e, raises "groq" k api_key = Some e →
           initialize_kind imported unicode_lower raises k a
           = (Raise e,
              [(INFO, InitializingProvider k provider (VoiceAssistant.node_id a));
               (WARNING, UnsupportedProvider k provider (VoiceAssistant.node_id a))])))
  ∧ (is_supported k provider = true →
     provider ≠ "groq" →
     imported (plugin_of provider) = false →
     initialize_kind imported unicode_lower raises k a
     = (Ok a, [(INFO, InitializingProvider k provider (VoiceAssistant.node_id a));
               (WARNING, PluginNotAvailable (plugin_of provider))])
     ∧ (truthy (VoiceAssistant.config a) = true →
        all_livekit (VoiceAssistant.config a) required_livekit = Ok true →
        (∀ k', k' ≠ k →
           ∃ p' key',
             VoiceAssistant.provider_and_key unicode_lower a (section_of k')
             = Ok (p', key')
             ∧ ∀ plugin, constructor_called imported k' p' = Some plugin →
                         raises plugin k' key' = None) →
        ∃ a' l,
          VoiceAssistant.initialize imported unicode_lower raises a = (true, a', l)
          ∧ VoiceAssistant._initialized a' = true
          ∧ VoiceAssistant.get_adapter k a' = VoiceAssistant.get_adapter k a
          ∧ In (WARNING, PluginNotAvailable (plugin_of provider)) l)).
Proof.
  intros Hp.
  pose proof (initialize_kind_spec imported unicode_lower raises k a provider api_key Hp)
    as Hspec.
  split.
  - intros Hs.
    assert (Hg : String.eqb provider "groq" = false).
    { destruct (String.eqb_spec provider "groq") as [->|]; [|reflexivity].
      by destruct k. }
    unfold constructor_called, provider_warnings in Hspec.
    rewrite Hs, Hg in Hspec. cbn in Hspec. unfold built in Hspec.
    split.
    + intros Hr. rewrite Hr in Hspec.
      eexists. split; [exact Hspec|].
      destruct (set_adapter_frame k a (Adapter "groq" k api_key))
        as (? & ? & ? & ? & ?).
      by repeat split.
    + intros e Hr. by rewrite Hr in Hspec.
  - intros Hs Hne Hi.
    assert (Hg : String.eqb provider "groq" = false) by by apply String.eqb_neq.
    assert (Hc : constructor_called imported k provider = None).
    { unfold constructor_called. by rewrite Hs, Hg, Hi. }
    assert (Hw : provider_warnings imported k provider (VoiceAssistant.node_id a)
                 = [(WARNING, PluginNotAvailable (plugin_of provider))]).
    { unfold provider_warnings. by rewrite Hs, Hg, Hi. }
    rewrite Hc, Hw in Hspec. split; [exact Hspec|].
    intros Ht Hv Hall.
    destruct (initialize_true imported unicode_lower raises a Ht Hv) as (a' & l & Hinit).
    { intros k'.
      assert (Hd : k' = k ∨ k' ≠ k) by (destruct k', k; auto; by right).
      destruct Hd as [->|Hk]; [|by apply Hall].
      exists provider, api_key. split; [exact Hp|]. rewrite Hc. by intros ? [=]. }
    exists a', l. split; [exact Hinit|].
    destruct (initialize_true_inv imported unicode_lower raises a a' l Ht Hinit)
      as (_ & _ & Hin & Hk).
    split; [exact Hin|].
    destruct (Hk k) as (p & key & Hp' & _ & Hget & Hlog).
    rewrite Hp in Hp'. injection Hp' as <- <-.
    rewrite Hc in Hget. split; [exact Hget|].
    apply Hlog. rewrite Hw. by left.
Qed.

Lemma provider_fallback_and_skip_witness :
  (∃ a',
     initialize_kind (fun _ => false) lower empty_key_raises LLM
       (VoiceAssistant.__init__ keyed_config (PStr "n1"))
     = (Ok a', [(INFO, InitializingProvider LLM "mistral" (PStr "n1"));
                (WARNING, UnsupportedProvider LLM "mistral" (PStr "n1"))])
     ∧ VoiceAssistant.get_adapter LLM a' = Some (Adapter "groq" LLM (PStr "k2")))
  ∧ ∃ a' l,
      VoiceAssistant.initialize (fun _ => false) lower empty_key_raises
        (VoiceAssistant.__init__ keyed_config (PStr "n1")) = (true, a', l)
      ∧ VoiceAssistant._initialized a' = true
      ∧ VoiceAssistant.get_adapter STT a' = None
      ∧ In (WARNING, PluginNotAvailable "deepgram") l.
Proof.
  split.
  - destruct (provider_fallback_and_skip (fun _ => false) lower empty_key_raises
                (VoiceAssistant.__init__ keyed_config (PStr "n1")) LLM
                "mistral" (PStr "k2") eq_refl) as [H _].
    destruct (H eq_refl) as [H1 _].
    destruct (H1 eq_refl) as (a' & E & G & _).
    exists a'. by split.
  - destruct (provider_fallback_and_skip (fun _ => false) lower empty_key_raises
                (VoiceAssistant.__init__ keyed_config (PStr "n1")) STT
                "deepgram" (PStr "k1") eq_refl) as [_ H].
    destruct H as [_ H]; [reflexivity|discriminate|reflexivity|].
    apply H; [reflexivity|reflexivity|].
    intros [| |] Hk; [done|..]; cbn; eexists _, _; (split; [reflexivity|]);
      by intros ? [= <-].
Defined.

(** ** The worker supervisor *)

Lemma is_alive_terminate_eq (ths : list thread) (tid : nat) :
  is_alive (terminate tid ths) tid = false.
Proof.
  unfold is_alive, terminate. rewrite list_lookup_alter_eq.
  by destruct (ths !! tid).
Qed.

(** A thread that runs after [terminate] ran before it, and is another
    thread than the terminated one. *)
Lemma lookup_terminate_alive (ths : list thread) (tid j : nat) (t : thread) :
  terminate tid ths !! j = Some t →
  alive t = true →
  ths !! j = Some t ∧ j ≠ tid.
Proof.
  intros Hl Ha. unfold terminate in Hl.
  destruct (decide (tid = j)) as [->|Hne].
  - rewrite list_lookup_alter_eq in Hl.
    destruct (ths !! j); cbn in Hl; [|discriminate].
    injection Hl as <-. discriminate.
  - rewrite list_lookup_alter_ne in Hl by done. split; [assumption|congruence].
Qed.

Section stop_agent_facts.
Import UserAgentManager.
Variables (m : UserAgentManager.t) (ths : list thread) (e : option nat).

Lemma stop_agent_idle :
  thread_alive m ths = false → stop_agent m ths e = (m, ths, [], 0).
Proof.
  unfold thread_alive, stop_agent. destruct (agent_thread m) as [tid|]; [|done].
  by intros ->.
Qed.

Lemma stop_agent_in_time (tid : nat) :
  agent_thread m = Some tid →
  is_alive ths tid = true →
  in_time e = true →
  ∃ d, e = Some d ∧ d ≤ 5
       ∧ stop_agent m ths e
         = (set_shutdown_event m, terminate tid ths,
            [(INFO, StoppingAgent (node_id m))], d).
Proof.
  intros Ht Ha He. unfold stop_agent. rewrite Ht, Ha.
  destruct e as [d|]; [|discriminate]. cbn in He. unfold join. rewrite He.
  rewrite is_alive_terminate_eq. exists d. repeat split.
  by apply Nat.leb_le.
Qed.

Lemma stop_agent_stuck (tid : nat) :
  agent_thread m = Some tid →
  is_alive ths tid = true →
  in_time e = false →
  stop_agent m ths e
  = (set_shutdown_event m, ths,
     [(INFO, StoppingAgent (node_id m));
      (WARNING, DidNotStopGracefully (node_id m))], 5).
Proof.
  intros Ht Ha He. unfold stop_agent. rewrite Ht, Ha. unfold join.
  destruct e as [d|]; cbn in He; rewrite ?He, Ha; reflexivity.
Qed.

(** What [stop_agent] leaves running was running before, and after a
    join that ended in time the manager's own thread is not among it. *)
Lemma stop_agent_survivors (j : nat) (t : thread) :
  (stop_agent m ths e).1.1.2 !! j = Some t →
  alive t = true →
  ths !! j = Some t ∧ (in_time e = true → agent_thread m ≠ Some j).
Proof.
  intros Hl Ha.
  destruct (thread_alive m ths) eqn:Hm.
  - unfold thread_alive in Hm. destruct (agent_thread m) as [tid|] eqn:Ht; [|done].
    destruct (in_time e) eqn:He.
    + destruct (stop_agent_in_time tid Ht Hm He) as (d & _ & _ & Hs).
      rewrite Hs in Hl. cbn in Hl.
      apply lookup_terminate_alive in Hl as [Hl Hne]; [|done].
      split; [done|]. intros _ [= ->]. done.
    + rewrite (stop_agent_stuck tid Ht Hm He) in Hl. done.
  - rewrite (stop_agent_idle Hm) in Hl. cbn in Hl. split; [done|].
    intros _ Ht. unfold thread_alive in Hm. rewrite Ht in Hm.
    unfold is_alive in Hm. rewrite Hl in Hm. congruence.
Qed.
End stop_agent_facts.

(** C4, as stated, fails for a handle without a live unit: a manager that
    was never started, and one whose thread has already returned, come out
    of [stop_agent] with the shutdown event still clear. *)
Lemma stop_of_idle_handle_raises_no_signal :
  UserAgentManager.shutdown_event
    (UserAgentManager.stop_agent
       (UserAgentManager.__init__ (PStr "n1") (config_of full_media "n1")) [] None).1.1.1
  = false
  ∧ UserAgentManager.shutdown_event
      (UserAgentManager.stop_agent
         (UserAgentManager.set_agent_thread
            (UserAgentManager.__init__ (PStr "n1") (config_of full_media "n1")) 0)
         [{| thread_node := PStr "n1"; alive := false |}] (Some 1)).1.1.1
    = false.
Proof. split; reflexivity. Qed.

(** C4, amended. [stop_agent] never waits longer than the 5-unit grace
    timeout. On a handle whose thread is alive it sets the shutdown event;
    if the thread exits in time it is no longer alive and nothing is
    reported; if it does not, the call returns at the timeout, logs the
    not-graceful warning and leaves the thread table untouched, the thread
    still running. On a handle without a live thread it changes nothing
    and does not wait. *)
Theorem stop_agent_bounded_and_cooperative
    (m : UserAgentManager.t) (ths : list thread) (e : option nat) :
  (UserAgentManager.stop_agent m ths e).2 ≤ 5
  ∧ (UserAgentManager.thread_alive m ths = false →
     UserAgentManager.stop_agent m ths e = (m, ths, [], 0))
  ∧ (UserAgentManager.thread_alive m ths = true →
     let m' := (UserAgentManager.stop_agent m ths e).1.1.1 in
     let ths' := (UserAgentManager.stop_agent m ths e).1.1.2 in
     let l := (UserAgentManager.stop_agent m ths e).1.2 in
     UserAgentManager.shutdown_event m' = true
     ∧ UserAgentManager.agent_thread m' = UserAgentManager.agent_thread m
     ∧ (in_time e = true →
        UserAgentManager.thread_alive m' ths' = false
        ∧ ¬ In (WARNING, DidNotStopGracefully (UserAgentManager.node_id m)) l)
     ∧ (in_time e = false →
        (UserAgentManager.stop_agent m ths e).2 = 5
        ∧ ths' = ths
        ∧ UserAgentManager.thread_alive m' ths' = true
        ∧ In (WARNING, DidNotStopGracefully (UserAgentManager.node_id m)) l)).
Proof.
  destruct (UserAgentManager.thread_alive m ths) eqn:Hm.
  - pose proof Hm as Hm'. unfold UserAgentManager.thread_alive in Hm'.
    destruct (UserAgentManager.agent_thread m) as [tid|] eqn:Ht; [|done].
    destruct (in_time e) eqn:He.
    + destruct (stop_agent_in_time m ths e tid Ht Hm' He) as (d & _ & Hd & ->).
      cbn. split; [exact Hd|]. split; [done|]. intros _.
      split; [reflexivity|]. split; [exact Ht|]. split; [|done].
      intros _. split.
      * unfold UserAgentManager.thread_alive. cbn. rewrite Ht.
        apply is_alive_terminate_eq.
      * intros [[=]|[]].
    + rewrite (stop_agent_stuck m ths e tid Ht Hm' He).
      cbn. split; [lia|]. split; [done|]. intros _.
      split; [reflexivity|]. split; [exact Ht|]. split; [done|].
      intros _. split; [reflexivity|]. split; [reflexivity|]. split.
      * unfold UserAgentManager.thread_alive. cbn. by rewrite Ht.
      * auto.
  - rewrite (stop_agent_idle m ths e Hm). cbn. split; [lia|]. split; done.
Qed.

Lemma stop_agent_bounded_and_cooperative_witness :
  (UserAgentManager.stop_agent
     (UserAgentManager.set_agent_thread
        (UserAgentManager.__init__ (PStr "n1") (config_of full_media "n1")) 0)
     [{| thread_node := PStr "n1"; alive := true |}] None).2 = 5
  ∧ (UserAgentManager.stop_agent
       (UserAgentManager.set_agent_thread
          (UserAgentManager.__init__ (PStr "n1") (config_of full_media "n1")) 0)
       [{| thread_node := PStr "n1"; alive := true |}] None).1.1.2
    = [{| thread_node := PStr "n1"; alive := true |}].
Proof.
  destruct (stop_agent_bounded_and_cooperative
              (UserAgentManager.set_agent_thread
                 (UserAgentManager.__init__ (PStr "n1") (config_of full_media "n1")) 0)
              [{| thread_node := PStr "n1"; alive := true |}] None)
    as (_ & _ & H).
  destruct (H eq_refl) as (_ & _ & _ & Hstuck).
  destruct (Hstuck eq_refl) as (Hw & Hths & _). split; assumption.
Defined.

(** ** At most one live worker per node *)

Lemma start_agent_noop (m : UserAgentManager.t) (ths : list thread) :
  UserAgentManager.thread_alive m ths = true →
  UserAgentManager.start_agent m ths = (m, ths, []).
Proof. intros H. unfold UserAgentManager.start_agent. by rewrite H. Qed.

Lemma start_agent_spawns (m : UserAgentManager.t) (ths : list thread) :
  UserAgentManager.thread_alive m ths = false →
  UserAgentManager.start_agent m ths
  = (UserAgentManager.set_agent_thread m (length ths),
     ths ++ [{| thread_node := UserAgentManager.node_id m; alive := true |}],
     [(INFO, AgentStarted (UserAgentManager.node_id m))]).
Proof. intros H. unfold UserAgentManager.start_agent. by rewrite H. Qed.

Lemma owned_at_most_one (st : state) : owned st → at_most_one_alive (threads st).
Proof.
  intros Ho i j ti tj Hi Hj Hai Haj Hk.
  destruct (Ho i ti Hi Hai) as (ki & mi & Hki & Hmi & Hti).
  destruct (Ho j tj Hj Haj) as (kj & mj & Hkj & Hmj & Htj).
  rewrite Hk, Hkj in Hki. injection Hki as <-.
  rewrite Hmj in Hmi. injection Hmi as <-. congruence.
Qed.

Lemma owned_empty : owned empty_state.
Proof. intros tid t Hl. cbn in Hl. by rewrite lookup_nil in Hl. Qed.

(** A thread started for a new manager under key [k], after the thread of
    the manager it replaces was stopped in time, keeps the table owned. *)
Lemma owned_replace (st : state) (k : key) (node_id cfg : pyval)
    (configs : gmap key pyval) (ths1 : list thread) :
  owned st →
  hash_key node_id = Ok k →
  (∀ j t, ths1 !! j = Some t → alive t = true →
          threads st !! j = Some t
          ∧ ∀ old, user_agents st !! k = Some old →
                   UserAgentManager.agent_thread old ≠ Some j) →
  owned {| user_configs := configs;
           user_agents :=
             <[k := UserAgentManager.set_agent_thread
                      (UserAgentManager.__init__ node_id cfg) (length ths1)]>
               (user_agents st);
           threads := ths1 ++ [{| thread_node := node_id; alive := true |}] |}.
Proof.
  intros Ho Hh Hsurv tid t Hl Ha. cbn in Hl |- *.
  apply lookup_app_Some in Hl as [Hl|[Hlen Hl]].
  - destruct (Hsurv tid t Hl Ha) as [Hold Hne].
    destruct (Ho tid t Hold Ha) as (k0 & m0 & Hk0 & Hm0 & Ht0).
    exists k0, m0. split; [done|]. split; [|done].
    rewrite lookup_insert_ne; [done|].
    intros <-. by apply (Hne m0).
  - destruct (tid - length ths1) as [|n] eqn:Hd; [|by destruct n].
    injection Hl as <-. cbn.
    eexists k, _. split; [done|]. rewrite lookup_insert_eq. split; [done|].
    cbn. f_equal. lia.
Qed.

Lemma owned_set_config (req : request) (e : option nat) (st : state) :
  in_time e = true → owned st → owned (Service.set_config req e st).1.2.
Proof.
  intros He Ho.
  destruct (is_success (Service.set_config req e st).1.1) eqn:Hs.
  - apply set_config_accepted in Hs
      as (d & node_id & k & ths1 & _ & _ & _ & _ & Hh & Hths & _ & ->).
    apply owned_replace; [done|done|].
    intros j t Hl Ha. subst ths1.
    destruct (user_agents st !! k) as [old|] eqn:Hold.
    + apply stop_agent_survivors in Hl as [Hl Hne]; [|done].
      split; [done|]. intros old' [= <-]. by apply Hne.
    + split; [done|]. intros old' [=].
  - apply set_config_rejected in Hs as [_ ->]. done.
Qed.

Lemma owned_cleanup_node (n : string) (e : option nat) (st : state) :
  in_time e = true → owned st → owned (Service.cleanup_node n e st).1.2.
Proof.
  intros He Ho tid t. unfold Service.cleanup_node.
  destruct (user_agents st !! KStr n) as [m|] eqn:Hm.
  - destruct (stop_agent_fst m (threads st) e) as (m' & l & w & Hs).
    rewrite Hs. cbn. intros Hl Ha.
    apply stop_agent_survivors in Hl as [Hl Hne]; [|done].
    destruct (Ho tid t Hl Ha) as (k0 & m0 & Hk0 & Hm0 & Ht0).
    exists k0, m0. split; [done|]. split; [|done].
    rewrite lookup_delete_ne; [done|].
    intros <-. rewrite Hm in Hm0. injection Hm0 as <-. by apply Hne.
  - cbn. intros Hl Ha. by apply Ho.
Qed.

Lemma owned_exit (tid : nat) (st : state) :
  owned st → owned (run_event st (Exit tid)).
Proof.
  intros Ho j t Hl Ha. cbn in Hl |- *.
  apply lookup_terminate_alive in Hl as [Hl _]; [|done]. by apply Ho.
Qed.

Lemma owned_run (evs : list event) :
  ∀ st, forallb graceful evs = true → owned st → owned (run st evs).
Proof.
  induction evs as [|ev evs IH]; intros st Hg Ho; [done|].
  cbn in Hg. apply andb_prop in Hg as [Hev Hg].
  cbn. apply IH; [done|].
  destruct ev as [req e|n e|tid]; cbn in Hev |- *.
  - by apply owned_set_config.
  - by apply owned_cleanup_node.
  - by apply owned_exit.
Qed.

Lemma owned_init (env : string → option string) : owned (Service.__init__ env).1.
Proof.
  unfold Service.__init__, Service._auto_load_env_config.
  destruct (_ && _); [|apply owned_empty].
  cbn. apply (owned_replace empty_state (KStr _) (PStr _) _ _ []);
    [apply owned_empty | reflexivity |].
  intros j t Hl. by rewrite lookup_nil in Hl.
Qed.

(** C3, as stated, fails: when the worker of "n1" does not exit within the
    grace timeout, a second activation of "n1" starts its replacement next
    to it, and two threads of "n1" are alive. *)
Lemma stuck_unit_overlaps_replacement :
  ¬ at_most_one_alive
      (threads
         (run (Service.__init__ (fun _ => None)).1
            [Activate (activation (config_of full_media "n1")) None;
             Activate (activation (config_of full_media "n1")) None])).
Proof.
  intros H.
  specialize (H 0 1 {| thread_node := PStr "n1"; alive := true |}
                {| thread_node := PStr "n1"; alive := true |}).
  assert (0 = 1) as [=]. apply H; vm_compute; reflexivity.
Qed.

(** C3, amended. [start_agent] leaves a manager whose thread is alive as it
    is; it starts a new thread, and records it, exactly when the probe of
    the recorded thread says it is not alive, a recorded but finished
    thread included. Consequently, along every history of activations,
    cleanups and worker exits, run one after another from process start,
    in which each joined worker exits within the grace timeout, no two live
    threads belong to the same node. *)
Theorem start_agent_at_most_once :
  (∀ m ths, UserAgentManager.thread_alive m ths = true →
            UserAgentManager.start_agent m ths = (m, ths, []))
  ∧ (∀ m ths, UserAgentManager.thread_alive m ths = false →
              UserAgentManager.start_agent m ths
              = (UserAgentManager.set_agent_thread m (length ths),
                 ths ++ [{| thread_node := UserAgentManager.node_id m; alive := true |}],
                 [(INFO, AgentStarted (UserAgentManager.node_id m))]))
  ∧ (∀ env evs, forallb graceful evs = true →
                at_most_one_alive (threads (run (Service.__init__ env).1 evs))).
Proof.
  split; [exact start_agent_noop|]. split; [exact start_agent_spawns|].
  intros env evs Hg. apply owned_at_most_one, owned_run; [done|apply owned_init].
Qed.

Lemma start_agent_at_most_once_witness :
  UserAgentManager.start_agent
    (UserAgentManager.set_agent_thread
       (UserAgentManager.__init__ (PStr "n1") (config_of full_media "n1")) 0)
    [{| thread_node := PStr "n1"; alive := true |}]
  = (UserAgentManager.set_agent_thread
       (UserAgentManager.__init__ (PStr "n1") (config_of full_media "n1")) 0,
     [{| thread_node := PStr "n1"; alive := true |}], [])
  ∧ at_most_one_alive
      (threads
         (run (Service.__init__ (fun _ => None)).1
            [Activate (activation (config_of full_media "n1")) (Some 0);
             Activate (activation (config_of full_media "n1")) (Some 3);
             Exit 1;
             Cleanup "n1" (Some 0)])).
Proof.
  destruct start_agent_at_most_once as (H1 & _ & H3). split.
  - apply H1. reflexivity.
  - apply H3. reflexivity.
Defined.

(** * Further properties of the code *)

(** ** Activation: acceptance, effect and isolation *)

(** X1. [set_config] answers success exactly when the body is an object
    that names a truthy, hashable node id (its own [nodeId], else the
    header) and holds the four top-level keys; in every other case it
    answers failure with HTTP 400 and the state is the one it was called
    in. *)
Theorem set_config_accepts_iff (req : request) (e : option nat) (st : state) :
  (is_success (Service.set_config req e st).1.1 = true
   ↔ ∃ d k,
       get_json req = Ok (PDict d)
       ∧ truthy (py_or (default PNone (assoc "nodeId" d)) (opt_str (x_node_id req))) = true
       ∧ hash_key (py_or (default PNone (assoc "nodeId" d)) (opt_str (x_node_id req)))
         = Ok k
       ∧ forallb (fun k => has_key k d) Service.required_top_level = true)
  ∧ (is_success (Service.set_config req e st).1.1 = false →
     is_failure (Service.set_config req e st).1.1 = true
     ∧ (Service.set_config req e st).1.2 = st).
Proof.
  split; [split|].
  - intros Hs. apply set_config_accepted in Hs
      as (d & node_id & k & ths1 & Hj & -> & Hn & Hk & Hh & _).
    by exists d, k.
  - intros (d & k & Hj & Hn & Hh & Hk). by apply (set_config_accepts req e st d k).
  - apply set_config_rejected.
Qed.

Lemma set_config_accepts_iff_witness :
  is_failure
    (Service.set_config (activation (PDict [("nodeId", PList [PStr "n1"]);
                                            ("liveKit", PDict full_media);
                                            ("stt", PDict []); ("llm", PDict []);
                                            ("tts", PDict [])])) None activated).1.1 = true
  ∧ (Service.set_config (activation (PDict [("nodeId", PList [PStr "n1"]);
                                            ("liveKit", PDict full_media);
                                            ("stt", PDict []); ("llm", PDict []);
                                            ("tts", PDict [])])) None activated).1.2
    = activated.
Proof.
  apply (set_config_accepts_iff
           (activation (PDict [("nodeId", PList [PStr "n1"]);
                               ("liveKit", PDict full_media);
                               ("stt", PDict []); ("llm", PDict []);
                               ("tts", PDict [])])) None activated).
  reflexivity.
Defined.

Lemma is_alive_last (ths : list thread) (t : thread) :
  is_alive (ths ++ [t]) (length ths) = alive t.
Proof. unfold is_alive. by rewrite list_lookup_middle. Qed.

(** X2. An accepted activation of node [n] starts exactly one new thread,
    alive and carrying [n], and records it in the node's new manager, whose
    shutdown event is clear; the health check of [n] then reports the
    config as present and the agent as running. *)
Theorem activation_starts_worker
    (req q : request) (e : option nat) (st : state) (n : string) :
  (Service.set_config req e st).1.1
  = resp_success "Config stored and agent started"
      (PDict [("status", PStr "ok"); ("nodeId", PStr n)]) →
  request_node_id q = PStr n →
  let st' := (Service.set_config req e st).1.2 in
  length (threads st') = S (length (threads st))
  ∧ threads st' !! length (threads st) = Some {| thread_node := PStr n; alive := true |}
  ∧ (∃ m, user_agents st' !! KStr n = Some m
          ∧ UserAgentManager.agent_thread m = Some (length (threads st))
          ∧ UserAgentManager.shutdown_event m = false
          ∧ get_json req = Ok (UserAgentManager.config m))
  ∧ routes.health_check q st'
    = resp_success "Health check completed"
        (PDict [("status", PStr "ok");
                ("nodeId", PStr n);
                ("services", PDict [("config", PBool true);
                                    ("token", PBool true);
                                    ("agent", PBool true)]);
                ("config_available", PBool true)]).
Proof.
  intros Hr Hq st'.
  assert (Hs : is_success (Service.set_config req e st).1.1 = true)
    by (rewrite Hr; reflexivity).
  apply set_config_accepted in Hs
    as (d & node_id & k & ths1 & Hj & _ & Hn & _ & Hh & Hths & Hr' & Hst).
  rewrite Hr in Hr'. injection Hr' as <-. cbn in Hh. injection Hh as <-.
  assert (Hlen : length ths1 = length (threads st)).
  { subst ths1. destruct (user_agents st !! KStr n) as [old|]; [|done].
    unfold UserAgentManager.stop_agent.
    destruct (UserAgentManager.agent_thread old) as [tid|]; [|done].
    destruct (is_alive (threads st) tid); [|done].
    unfold join. destruct e as [d0|]; [|done].
    destruct (d0 <=? 5); [|done]. cbn. unfold terminate. by rewrite length_alter. }
  subst st'. rewrite Hst. cbn [threads user_agents user_configs].
  split; [rewrite length_app; cbn; lia|].
  split; [rewrite <- Hlen; apply list_lookup_middle; reflexivity|].
  split.
  - eexists. rewrite lookup_insert_eq. split; [done|]. cbn. rewrite Hlen. done.
  - unfold routes.health_check, Service.health_check. rewrite Hq, Hn. cbn.
    rewrite !lookup_insert_eq. cbn. rewrite is_alive_last. cbn.
    rewrite ?bool_decide_eq_true_2 by eauto. reflexivity.
Qed.

Lemma activation_starts_worker_witness :
  routes.health_check (query "n1")
    (Service.set_config (activation (config_of no_secret "n1")) None activated).1.2
  = resp_success "Health check completed"
      (PDict [("status", PStr "ok");
              ("nodeId", PStr "n1");
              ("services", PDict [("config", PBool true);
                                  ("token", PBool true);
                                  ("agent", PBool true)]);
              ("config_available", PBool true)]).
Proof.
  apply (activation_starts_worker
           (activation (config_of no_secret "n1")) (query "n1") None activated "n1");
    reflexivity.
Defined.

Lemma stop_agent_others (m : UserAgentManager.t) (ths : list thread) (e : option nat)
    (j : nat) :
  UserAgentManager.agent_thread m ≠ Some j →
  (UserAgentManager.stop_agent m ths e).1.1.2 !! j = ths !! j.
Proof.
  intros Hne. unfold UserAgentManager.stop_agent.
  destruct (UserAgentManager.agent_thread m) as [tid|]; [|done].
  destruct (is_alive ths tid); [|done].
  unfold join. destruct e as [d|]; [|done]. destruct (d <=? 5); [|done].
  cbn. unfold terminate. apply list_lookup_alter_ne. congruence.
Qed.

(** X3. An accepted activation of node [n] touches nothing of the other
    nodes: their configs and managers are the same afterwards, and every
    thread other than the one held by the previous manager of [n] is as it
    was. *)
Theorem activation_is_isolated
    (req : request) (e : option nat) (st : state) (n : string) :
  (Service.set_config req e st).1.1
  = resp_success "Config stored and agent started"
      (PDict [("status", PStr "ok"); ("nodeId", PStr n)]) →
  let st' := (Service.set_config req e st).1.2 in
  (∀ k, k ≠ KStr n →
        user_configs st' !! k = user_configs st !! k
        ∧ user_agents st' !! k = user_agents st !! k)
  ∧ (∀ j t, threads st !! j = Some t →
            (∀ old, user_agents st !! KStr n = Some old →
                    UserAgentManager.agent_thread old ≠ Some j) →
            threads st' !! j = Some t).
Proof.
  intros Hr st'.
  assert (Hs : is_success (Service.set_config req e st).1.1 = true)
    by (rewrite Hr; reflexivity).
  apply set_config_accepted in Hs
    as (d & node_id & k & ths1 & Hj & _ & Hn & _ & Hh & Hths & Hr' & Hst).
  rewrite Hr in Hr'. injection Hr' as <-. cbn in Hh. injection Hh as <-.
  subst st'. rewrite Hst. cbn [threads user_agents user_configs]. split.
  - intros k Hk. by rewrite !lookup_insert_ne.
  - intros j t Hl Hold.
    assert (H1 : ths1 !! j = Some t).
    { subst ths1. destruct (user_agents st !! KStr n) as [old|]; [|done].
      rewrite stop_agent_others; [done|]. by apply Hold. }
    rewrite lookup_app_l; [done|]. by apply lookup_lt_Some in H1.
Qed.

Lemma activation_is_isolated_witness :
  user_configs
    (Service.set_config (activation (config_of no_url "n2")) (Some 0) activated).1.2
    !! KStr "n1"
  = user_configs activated !! KStr "n1"
  ∧ user_agents
      (Service.set_config (activation (config_of no_url "n2")) (Some 0) activated).1.2
      !! KStr "n1"
    = user_agents activated !! KStr "n1".
Proof.
  destruct (activation_is_isolated
              (activation (config_of no_url "n2")) (Some 0) activated "n2" eq_refl)
    as [H _].
  apply H. discriminate.
Defined.

(** ** Cleanup: idempotence and isolation *)

Lemma cleanup_node_state (n : string) (e : option nat) (st : state) :
  (Service.cleanup_node n e st).1.2
  = {| user_configs := delete (KStr n) (user_configs st);
       user_agents := delete (KStr n) (user_agents st);
       threads := match user_agents st !! KStr n with
                  | Some m => (UserAgentManager.stop_agent m (threads st) e).1.1.2
                  | None => threads st
                  end |}.
Proof.
  unfold Service.cleanup_node.
  assert (Hc : match user_configs st !! KStr n with
               | Some _ => delete (KStr n) (user_configs st)
               | None => user_configs st
               end = delete (KStr n) (user_configs st)).
  { destruct (user_configs st !! KStr n) eqn:H; [done|]. by rewrite delete_id. }
  rewrite Hc.
  destruct (user_agents st !! KStr n) as [m|] eqn:Ha.
  - by destruct (stop_agent_fst m (threads st) e) as (m' & l & w & ->).
  - cbn. by rewrite (delete_id (user_agents st)).
Qed.

(** X4. [cleanup_node] of node [n] removes the config and the manager of
    [n] and nothing of any other node; threads other than the one held by
    the manager of [n] are as they were; and a second cleanup of [n],
    whatever the joined thread does, changes nothing any more. *)
Theorem cleanup_is_isolated_and_idempotent
    (n : string) (e e' : option nat) (st : state) :
  let st' := (Service.cleanup_node n e st).1.2 in
  (∀ k, k ≠ KStr n →
        user_configs st' !! k = user_configs st !! k
        ∧ user_agents st' !! k = user_agents st !! k)
  ∧ (∀ j, (∀ m, user_agents st !! KStr n = Some m →
                UserAgentManager.agent_thread m ≠ Some j) →
          threads st' !! j = threads st !! j)
  ∧ (Service.cleanup_node n e' st').1.2 = st'.
Proof.
  intros st'. subst st'. rewrite !cleanup_node_state. cbn. split; [|split].
  - intros k Hk. by rewrite !lookup_delete_ne.
  - intros j Hj. destruct (user_agents st !! KStr n) as [m|]; [|done].
    apply stop_agent_others. by apply Hj.
  - rewrite lookup_delete_eq. by rewrite !delete_delete_eq.
Qed.

Lemma cleanup_is_isolated_and_idempotent_witness :
  user_configs (Service.cleanup_node "n2" None activated).1.2 !! KStr "n1"
  = user_configs activated !! KStr "n1"
  ∧ user_agents (Service.cleanup_node "n2" None activated).1.2 !! KStr "n1"
    = user_agents activated !! KStr "n1".
Proof.
  destruct (cleanup_is_isolated_and_idempotent "n2" None None activated) as [H _].
  apply H. discriminate.
Defined.

(** ** Node ids that are not strings *)

Lemma get_config_depends_on_string_keys (q : request) (st st' : state) :
  (∀ s, user_configs st' !! KStr s = user_configs st !! KStr s) →
  routes.get_config q st' = routes.get_config q st.
Proof.
  intros H. unfold routes.get_config, Service.get_config.
  destruct (routes.missing_node_id q); [done|].
  destruct (request_node_id q); try done.
  destruct (negb _); [done|]. by rewrite H.
Qed.

(** X5. An activation whose node id hashes to a key that is not a string
    (a JSON number, or [true]) is accepted and stored, but no request can
    name it: every [get-config] answer is the same as before the
    activation, and no [cleanup_node] removes the config or the manager. *)
Theorem non_string_node_is_unreachable
    (req : request) (e : option nat) (st : state)
    (d : list (string * pyval)) (k : key) :
  get_json req = Ok (PDict d) →
  truthy (py_or (default PNone (assoc "nodeId" d)) (opt_str (x_node_id req))) = true →
  hash_key (py_or (default PNone (assoc "nodeId" d)) (opt_str (x_node_id req))) = Ok k →
  (∀ s, k ≠ KStr s) →
  forallb (fun k => has_key k d) Service.required_top_level = true →
  let st' := (Service.set_config req e st).1.2 in
  is_success (Service.set_config req e st).1.1 = true
  ∧ user_configs st' !! k = Some (PDict d)
  ∧ (∀ q, routes.get_config q st' = routes.get_config q st)
  ∧ (∀ n e', user_configs (Service.cleanup_node n e' st').1.2 !! k = Some (PDict d)
             ∧ is_Some (user_agents (Service.cleanup_node n e' st').1.2 !! k)).
Proof.
  intros Hj Hn Hh Hk Hkeys st'.
  assert (Hs : is_success (Service.set_config req e st).1.1 = true)
    by (by apply (set_config_accepts req e st d k)).
  split; [exact Hs|].
  apply set_config_accepted in Hs
    as (d' & node_id & k' & ths1 & Hj' & -> & _ & _ & Hh' & _ & _ & Hst).
  rewrite Hj in Hj'. injection Hj' as <-. rewrite Hh in Hh'. injection Hh' as <-.
  assert (Hc : user_configs st' !! k = Some (PDict d)).
  { subst st'. rewrite Hst. cbn. by rewrite lookup_insert_eq. }
  assert (Ha : is_Some (user_agents st' !! k)).
  { subst st'. rewrite Hst. cbn. rewrite lookup_insert_eq. eauto. }
  split; [exact Hc|]. split.
  - intros q. apply get_config_depends_on_string_keys. intros s.
    subst st'. rewrite Hst. cbn. rewrite lookup_insert_ne; [done|]. apply Hk.
  - intros n e'. rewrite cleanup_node_state. cbn.
    rewrite !lookup_delete_ne by (intros Heq; by apply (Hk n)). done.
Qed.

Lemma non_string_node_is_unreachable_witness :
  is_success (Service.set_config (activation numbered) None empty_state).1.1 = true
  ∧ routes.get_config (query "7") (Service.set_config (activation numbered) None empty_state).1.2
    = routes.get_config (query "7") empty_state.
Proof.
  destruct (non_string_node_is_unreachable (activation numbered) None empty_state
              (match numbered with PDict d => d | _ => [] end) (KInt 7)
              eq_refl eq_refl eq_refl) as (H1 & _ & H3 & _);
    [discriminate | reflexivity |].
  split; [exact H1 | apply H3].
Defined.

(** ** Tokens and rooms *)

(** X6. [get_token] answers success only for a request that names a node
    whose stored config is an object with a [liveKit] object holding a
    truthy [apiKey] and a truthy [secret]. The answer then carries the
    token the JWT library signed with that key and secret for the very
    room it names (the [room] parameter, or a generated
    [room-<node>-<8 characters>] when that is missing or empty) and for the
    identity [name], by default [user-<node>]. Once the node was cleaned up
    the answer is the configuration-not-found failure, whatever the JWT
    library would do. *)
Theorem get_token_needs_stored_credentials
    (to_jwt : pyval → pyval → string → string → result string) (uuid4 : string)
    (q : request) (st : state) :
  (is_success (Service.get_token to_jwt uuid4 q st).1 = true →
   ∃ n d lk token,
     request_node_id q = PStr n ∧ n ≠ ""
     ∧ user_configs st !! KStr n = Some (PDict d)
     ∧ assoc "liveKit" d = Some (PDict lk)
     ∧ truthy (default PNone (assoc "apiKey" lk)) = true
     ∧ truthy (default PNone (assoc "secret" lk)) = true
     ∧ let name := default ("user-" +:+ n) (assoc "name" (args q)) in
       let generated := "room-" +:+ n +:+ "-" +:+ String.substring 0 8 uuid4 in
       let room := match assoc "room" (args q) with
                   | Some r => if truthy (PStr r) then r else generated
                   | None => generated
                   end in
       to_jwt (default PNone (assoc "apiKey" lk)) (default PNone (assoc "secret" lk))
         name room = Ok token
       ∧ (Service.get_token to_jwt uuid4 q st).1
         = resp_success "Token generated successfully"
             (PDict [("token", PStr token);
                     ("room", PStr room);
                     ("serverUrl", default PNone (assoc "serverUrl" lk));
                     ("nodeId", PStr n)]))
  ∧ (∀ n e, request_node_id q = PStr n → n ≠ "" →
            (Service.get_token to_jwt uuid4 q (Service.cleanup_node n e st).1.2).1
            = resp_failure "Configuration not found"
                (PStr ("No configuration found for nodeId: " +:+ n))).
Proof.
  split.
  - unfold Service.get_token, Service._get_livekit_config_for_node.
    destruct (request_node_id q) as [| | |n| |] eqn:Hq; try discriminate.
    destruct (truthy (PStr n)) eqn:Hn; [|discriminate]. cbn [negb].
    destruct (user_configs st !! KStr n) as [cfg|] eqn:Hc; [|discriminate].
    destruct (truthy cfg) eqn:Hcfg; [|discriminate].
    destruct cfg as [| | | | |d]; try discriminate.
    cbn [negb default id get bind].
    destruct (assoc "liveKit" d) as [[| | | | |lk]|] eqn:Hlk; try discriminate.
    cbn [default id get bind].
    destruct (truthy (default PNone (assoc "apiKey" lk))) eqn:Ha;
      [|discriminate].
    destruct (truthy (default PNone (assoc "secret" lk))) eqn:Hs;
      [|discriminate].
    cbn [negb orb]. rewrite Ha, Hs. cbn [negb orb].
    match goal with
    | |- context [to_jwt ?a ?s ?name ?room] =>
        destruct (to_jwt a s name room) as [token|e0] eqn:Hj
    end; [|discriminate].
    intros _. exists n, d, lk, token. repeat split; try done.
    intros ->. discriminate.
  - intros n e Hq Hne.
    pose proof (cleanup_node_removes n e st) as (_ & Hc & _).
    unfold Service.get_token. rewrite Hq, Hc.
    destruct (String.eqb_spec n ""); [done|]. cbn.
    destruct (String.eqb_spec n ""); [done|]. reflexivity.
Qed.

Lemma get_token_needs_stored_credentials_witness :
  (Service.get_token (fun _ _ _ _ => Ok "jwt") "0123456789abcdef" (query "n1")
     (Service.cleanup_node "n1" None activated).1.2).1
  = resp_failure "Configuration not found"
      (PStr "No configuration found for nodeId: n1").
Proof.
  destruct (get_token_needs_stored_credentials
              (fun _ _ _ _ => Ok "jwt") "0123456789abcdef" (query "n1") activated)
    as [_ H].
  apply (H "n1" None); [reflexivity | discriminate].
Defined.

(** X7. With a node id, [get_rooms] always answers success, and its room
    list is exactly this: when the stored config of the node yields a
    truthy key and secret, the list the media platform returns when it is
    asked with that key and secret (and the stored server url, or [None]
    for one that is not truthy), or the empty list, with the error
    logged, when that call raises; the empty list, without asking the
    platform, when the key or the secret is not stored, as for a node
    that is not registered. *)
Theorem get_rooms_degrades_to_empty
    (list_rooms : pyval → pyval → pyval → result (list string))
    (q : request) (st : state) (n : string) :
  request_node_id q = PStr n →
  n ≠ "" →
  let answer (rooms : list string) :=
    resp_success "Rooms retrieved successfully"
      (PDict [("rooms", PList (PStr <$> rooms)); ("nodeId", PStr n)]) in
  (∀ lk a s u,
      get (default (PDict []) (user_configs st !! KStr n)) "liveKit" (PDict []) = Ok lk →
      get lk "apiKey" PNone = Ok a →
      get lk "secret" PNone = Ok s →
      get lk "serverUrl" PNone = Ok u →
      Service.get_rooms list_rooms q st
      = if truthy a && truthy s then
          match list_rooms (if truthy u then u else PNone) a s with
          | Ok rooms => (answer rooms, [])
          | Raise e => (answer [], [(ERROR, ErrorFetchingRooms (PStr n) e)])
          end
        else (answer [], [(WARNING, Core (CredentialsNotFound (PStr n)))]))
  ∧ (user_configs st !! KStr n = None →
     Service.get_rooms list_rooms q st
     = (answer [], [(WARNING, Core (CredentialsNotFound (PStr n)))]))
  ∧ (Service.get_rooms list_rooms q st).1
    = answer
        (let '(a, s, u) := (Service._get_livekit_config_for_node n st).1 in
         if truthy a && truthy s then
           match list_rooms (if truthy u then u else PNone) a s with
           | Ok rooms => rooms
           | Raise _ => []
           end
         else []).
Proof.
  intros Hq Hne answer.
  assert (Ht : truthy (PStr n) = true).
  { cbn. destruct (String.eqb_spec n ""); [done|reflexivity]. }
  assert (Hread : ∀ lk a s u,
      get (default (PDict []) (user_configs st !! KStr n)) "liveKit" (PDict []) = Ok lk →
      get lk "apiKey" PNone = Ok a →
      get lk "secret" PNone = Ok s →
      get lk "serverUrl" PNone = Ok u →
      Service.get_rooms list_rooms q st
      = if truthy a && truthy s then
          match list_rooms (if truthy u then u else PNone) a s with
          | Ok rooms => (answer rooms, [])
          | Raise e => (answer [], [(ERROR, ErrorFetchingRooms (PStr n) e)])
          end
        else (answer [], [(WARNING, Core (CredentialsNotFound (PStr n)))])).
  { intros lk a s u Hlk Ha Hs Hu.
    unfold Service.get_rooms, Service._get_rooms_async,
      Service._get_livekit_config_for_node.
    rewrite Hq, Ht. cbn [negb]. rewrite Hlk. cbn [bind]. rewrite Ha. cbn [bind].
    rewrite Hs. cbn [bind]. rewrite Hu. cbn [bind].
    destruct (truthy a) eqn:Ta; [|reflexivity].
    destruct (truthy s) eqn:Ts; [|reflexivity].
    cbn [negb orb andb]. rewrite Ta, Ts. cbn [negb orb].
    by destruct (list_rooms (if truthy u then u else PNone) a s). }
  split; [exact Hread|]. split.
  - intros Hnone. rewrite (Hread (PDict []) PNone PNone PNone);
      [reflexivity|by rewrite Hnone|reflexivity..].
  - unfold Service.get_rooms, Service._get_rooms_async. rewrite Hq, Ht. cbn [negb].
    destruct (Service._get_livekit_config_for_node n st) as [[[a s] u] l].
    cbn [fst]. destruct (truthy a); [|reflexivity].
    destruct (truthy s); [|reflexivity]. cbn [negb orb andb].
    by destruct (list_rooms (if truthy u then u else PNone) a s).
Qed.

Lemma get_rooms_degrades_to_empty_witness :
  Service.get_rooms
    (fun u a s => if truthy u then Ok ["lobby"; "room-n1"] else Raise (HTTPException "503"))
    (query "n1") activated
  = (resp_success "Rooms retrieved successfully"
       (PDict [("rooms", PList [PStr "lobby"; PStr "room-n1"]); ("nodeId", PStr "n1")]),
     [])
  ∧ Service.get_rooms (fun _ _ _ => Raise (HTTPException "503")) (query "n1") activated
    = (resp_success "Rooms retrieved successfully"
         (PDict [("rooms", PList []); ("nodeId", PStr "n1")]),
       [(ERROR, ErrorFetchingRooms (PStr "n1") (HTTPException "503"))])
  ∧ Service.get_rooms (fun _ _ _ => Ok ["lobby"]) (query "n2") activated
    = (resp_success "Rooms retrieved successfully"
         (PDict [("rooms", PList []); ("nodeId", PStr "n2")]),
       [(WARNING, Core (CredentialsNotFound (PStr "n2")))]).
Proof.
  split; [|split].
  - destruct (get_rooms_degrades_to_empty
                (fun u a s => if truthy u then Ok ["lobby"; "room-n1"]
                              else Raise (HTTPException "503"))
                (query "n1") activated "n1" eq_refl) as (H & _); [discriminate|].
    exact (H (PDict full_media) (PStr "key") (PStr "sec") (PStr "wss://lk")
             eq_refl eq_refl eq_refl eq_refl).
  - destruct (get_rooms_degrades_to_empty (fun _ _ _ => Raise (HTTPException "503"))
                (query "n1") activated "n1" eq_refl) as (H & _); [discriminate|].
    exact (H (PDict full_media) (PStr "key") (PStr "sec") (PStr "wss://lk")
             eq_refl eq_refl eq_refl eq_refl).
  - destruct (get_rooms_degrades_to_empty (fun _ _ _ => Ok ["lobby"])
                (query "n2") activated "n2" eq_refl) as (_ & H & _); [discriminate|].
    exact (H eq_refl).
Defined.

(** ** Restart and shutdown *)

Lemma is_alive_terminate (ths : list thread) (tid j : nat) :
  is_alive (terminate tid ths) j = true → is_alive ths j = true ∧ j ≠ tid.
Proof.
  unfold is_alive. destruct (terminate tid ths !! j) as [t|] eqn:Hl; [|done].
  intros Ha. apply lookup_terminate_alive in Hl as [Hl Hne]; [|done].
  by rewrite Hl.
Qed.

Lemma length_terminate (ths : list thread) (tid : nat) :
  length (terminate tid ths) = length ths.
Proof. apply length_alter. Qed.

(** What [stop_agent] does to the manager and the table, in one place. *)
Lemma stop_agent_effect (m : UserAgentManager.t) (ths : list thread) (e : option nat) :
  ∃ m' ths' l w,
    UserAgentManager.stop_agent m ths e = (m', ths', l, w)
    ∧ UserAgentManager.agent_thread m' = UserAgentManager.agent_thread m
    ∧ UserAgentManager.node_id m' = UserAgentManager.node_id m
    ∧ UserAgentManager.config m' = UserAgentManager.config m
    ∧ (UserAgentManager.shutdown_event m = true →
       UserAgentManager.shutdown_event m' = true)
    ∧ (UserAgentManager.thread_alive m ths = true →
       UserAgentManager.shutdown_event m' = true)
    ∧ w ≤ 5
    ∧ length ths' = length ths
    ∧ (∀ j, is_alive ths' j = true → is_alive ths j = true).
Proof.
  destruct (UserAgentManager.thread_alive m ths) eqn:Hm.
  - pose proof Hm as Hm'. unfold UserAgentManager.thread_alive in Hm'.
    destruct (UserAgentManager.agent_thread m) as [tid|] eqn:Ht; [|done].
    destruct (in_time e) eqn:He.
    + destruct (stop_agent_in_time m ths e tid Ht Hm' He) as (d & _ & Hd & ->).
      eexists _, _, _, _. split; [reflexivity|]. cbn.
      repeat split; try done.
      * apply length_terminate.
      * intros j Hj. by apply is_alive_terminate in Hj as [].
    + rewrite (stop_agent_stuck m ths e tid Ht Hm' He).
      eexists _, _, _, _. split; [reflexivity|]. cbn. repeat split; done.
  - rewrite (stop_agent_idle m ths e Hm).
    eexists _, _, _, _. split; [reflexivity|]. repeat split; try done. lia.
Qed.

Lemma restart_agent_spawned (m2 : UserAgentManager.t) (ths ths2 : list thread)
    (l : list ext_entry) (w : nat) :
  UserAgentManager.shutdown_event m2 = false →
  length ths2 = length ths →
  UserAgentManager.thread_alive m2 ths2 = false →
  let '(m3, ths3, l3) := UserAgentManager.start_agent m2 ths2 in
  UserAgentManager.shutdown_event m3 = false
  ∧ UserAgentManager.thread_alive m3 ths3 = true
  ∧ length ths3 = S (length ths)
  ∧ UserAgentManager.agent_thread m3 = Some (length ths).
Proof.
  intros Hev Hlen Hna. rewrite (start_agent_spawns m2 ths2 Hna).
  split; [exact Hev|]. split.
  - unfold UserAgentManager.thread_alive. cbn. apply is_alive_last.
  - rewrite length_app. cbn. rewrite Hlen. split; [lia|done].
Qed.

(** X8. [restart_agent] blocks for at most 6 time units and always ends
    with a clear shutdown event and a live thread recorded in the handle.
    When the handle's thread was alive and is not gone 6 units after it was
    asked to stop, that thread is the one kept: no new thread is started
    and the thread table is unchanged. In every other case exactly one new
    thread is started and recorded, and a previous live thread is gone. *)
Theorem restart_agent_outcome
    (m : UserAgentManager.t) (ths : list thread) (e : option nat) :
  let m3 := (UserAgentManager.restart_agent m ths e).1.1.1 in
  let ths3 := (UserAgentManager.restart_agent m ths e).1.1.2 in
  (UserAgentManager.restart_agent m ths e).2 ≤ 6
  ∧ UserAgentManager.shutdown_event m3 = false
  ∧ UserAgentManager.thread_alive m3 ths3 = true
  ∧ (UserAgentManager.thread_alive m ths = true → exits_within 6 e = false →
     ths3 = ths
     ∧ UserAgentManager.agent_thread m3 = UserAgentManager.agent_thread m)
  ∧ (UserAgentManager.thread_alive m ths = false ∨ exits_within 6 e = true →
     length ths3 = S (length ths)
     ∧ UserAgentManager.agent_thread m3 = Some (length ths)
     ∧ ∀ tid, UserAgentManager.agent_thread m = Some tid →
              is_alive ths tid = true → is_alive ths3 tid = false).
Proof.
  unfold UserAgentManager.restart_agent.
  destruct (UserAgentManager.thread_alive m ths) eqn:Hm.
  - pose proof Hm as Hm'. unfold UserAgentManager.thread_alive in Hm'.
    destruct (UserAgentManager.agent_thread m) as [tid|] eqn:Ht; [|done].
    destruct (in_time e) eqn:He.
    + destruct (stop_agent_in_time m ths e tid Ht Hm' He) as (d & -> & Hd & ->).
      unfold UserAgentManager.sleep_after_stop. cbn [UserAgentManager.agent_thread
        UserAgentManager.set_shutdown_event]. rewrite Ht.
      assert (Hd1 : (d <=? d + 1) = true) by (apply Nat.leb_le; lia).
      rewrite Hd1.
      pose proof (restart_agent_spawned
                    (UserAgentManager.clear_shutdown_event
                       (UserAgentManager.set_shutdown_event m))
                    ths (terminate tid (terminate tid ths)) [] 0 eq_refl) as Hsp.
      rewrite !length_terminate in Hsp. specialize (Hsp eq_refl).
      assert (Hdead : UserAgentManager.thread_alive
                (UserAgentManager.clear_shutdown_event
                   (UserAgentManager.set_shutdown_event m))
                (terminate tid (terminate tid ths)) = false).
      { unfold UserAgentManager.thread_alive. cbn. rewrite Ht.
        apply is_alive_terminate_eq. }
      specialize (Hsp Hdead).
      rewrite (start_agent_spawns _ _ Hdead) in Hsp |- *.
      destruct Hsp as (H1 & H2 & H3 & H4). cbn [fst snd].
      split; [lia|]. split; [exact H1|]. split; [exact H2|]. split.
      * intros _ Hex. cbn in Hex. apply Nat.leb_gt in Hex. lia.
      * intros _. split; [exact H3|]. split; [exact H4|].
        intros tid' [= <-] _. unfold is_alive.
        rewrite lookup_app_l by (rewrite !length_terminate; by apply lookup_lt_is_Some;
          unfold is_alive in Hm'; destruct (ths !! tid); eauto).
        apply is_alive_terminate_eq.
    + rewrite (stop_agent_stuck m ths e tid Ht Hm' He).
      unfold UserAgentManager.sleep_after_stop. cbn [UserAgentManager.agent_thread
        UserAgentManager.set_shutdown_event]. rewrite Ht.
      destruct (exits_within 6 e) eqn:Hex.
      * destruct e as [d|]; [|discriminate]. cbn in Hex.
        change (5 + 1) with 6. rewrite Hex.
        assert (Hdead : UserAgentManager.thread_alive
                  (UserAgentManager.clear_shutdown_event
                     (UserAgentManager.set_shutdown_event m))
                  (terminate tid ths) = false).
        { unfold UserAgentManager.thread_alive. cbn. rewrite Ht.
          apply is_alive_terminate_eq. }
        pose proof (restart_agent_spawned
                      (UserAgentManager.clear_shutdown_event
                         (UserAgentManager.set_shutdown_event m))
                      ths (terminate tid ths) [] 0 eq_refl
                      (length_terminate _ _) Hdead) as Hsp.
        rewrite (start_agent_spawns _ _ Hdead) in Hsp |- *.
        destruct Hsp as (H1 & H2 & H3 & H4). cbn [fst snd].
        split; [lia|]. split; [exact H1|]. split; [exact H2|]. split; [done|].
        intros _. split; [exact H3|]. split; [exact H4|].
        intros tid' [= <-] _. unfold is_alive.
        rewrite lookup_app_l by (rewrite length_terminate; by apply lookup_lt_is_Some;
          unfold is_alive in Hm'; destruct (ths !! tid); eauto).
        apply is_alive_terminate_eq.
      * assert (Hths : match e with
                       | Some d => if d <=? 5 + 1 then terminate tid ths else ths
                       | None => ths
                       end = ths).
        { destruct e as [d|]; [|done]. cbn in Hex. change (5 + 1) with 6.
          by rewrite Hex. }
        rewrite Hths.
        assert (Hal : UserAgentManager.thread_alive
                  (UserAgentManager.clear_shutdown_event
                     (UserAgentManager.set_shutdown_event m)) ths = true).
        { unfold UserAgentManager.thread_alive. cbn. by rewrite Ht. }
        rewrite (start_agent_noop _ _ Hal). cbn [fst snd].
        split; [lia|]. split; [reflexivity|]. split; [exact Hal|]. split.
        -- intros _ _. split; [reflexivity|]. cbn. exact Ht.
        -- intros [|]; discriminate.
  - rewrite (stop_agent_idle m ths e Hm).
    assert (Hlen : length (UserAgentManager.sleep_after_stop m ths e 0 1) = length ths).
    { unfold UserAgentManager.sleep_after_stop.
      destruct (UserAgentManager.agent_thread m), e as [d|]; try done.
      destruct (d <=? 0 + 1); [apply length_terminate|done]. }
    assert (Hdead : UserAgentManager.thread_alive
              (UserAgentManager.clear_shutdown_event m)
              (UserAgentManager.sleep_after_stop m ths e 0 1) = false).
    { unfold UserAgentManager.thread_alive in Hm |- *. cbn.
      destruct (UserAgentManager.agent_thread m) as [tid|] eqn:Ht; [|done].
      unfold UserAgentManager.sleep_after_stop. rewrite Ht.
      destruct e as [d|]; [|done]. destruct (d <=? 0 + 1); [|done].
      apply is_alive_terminate_eq. }
    pose proof (restart_agent_spawned (UserAgentManager.clear_shutdown_event m)
                  ths _ [] 0 eq_refl Hlen Hdead) as Hsp.
    rewrite (start_agent_spawns _ _ Hdead) in Hsp |- *.
    destruct Hsp as (H1 & H2 & H3 & H4). cbn [fst snd].
    split; [lia|]. split; [exact H1|]. split; [exact H2|]. split; [done|].
    intros _. split; [exact H3|]. split; [exact H4|].
    intros tid Ht Ha. unfold UserAgentManager.thread_alive in Hm.
    rewrite Ht in Hm. congruence.
Qed.

Lemma restart_agent_outcome_witness :
  (UserAgentManager.restart_agent
     (UserAgentManager.set_agent_thread
        (UserAgentManager.__init__ (PStr "n1") (config_of full_media "n1")) 0)
     [{| thread_node := PStr "n1"; alive := true |}] None).1.1.2
  = [{| thread_node := PStr "n1"; alive := true |}].
Proof.
  destruct (restart_agent_outcome
              (UserAgentManager.set_agent_thread
                 (UserAgentManager.__init__ (PStr "n1") (config_of full_media "n1")) 0)
              [{| thread_node := PStr "n1"; alive := true |}] None)
    as (_ & _ & _ & H & _).
  apply H; reflexivity.
Defined.

Lemma stop_all_effect (exit_after : key → option nat) (order : list key) :
  ∀ agents ths,
    let r := stop_all order exit_after agents ths in
    r.2 ≤ 5 * length order
    ∧ length r.1.1.2 = length ths
    ∧ (∀ j, is_alive r.1.1.2 j = true → is_alive ths j = true)
    ∧ ∀ k m', r.1.1.1 !! k = Some m' →
              ∃ m0, agents !! k = Some m0
                    ∧ UserAgentManager.agent_thread m' = UserAgentManager.agent_thread m0
                    ∧ UserAgentManager.node_id m' = UserAgentManager.node_id m0
                    ∧ UserAgentManager.config m' = UserAgentManager.config m0
                    ∧ (UserAgentManager.shutdown_event m0 = true →
                       UserAgentManager.shutdown_event m' = true)
                    ∧ (k ∈ order →
                       UserAgentManager.thread_alive m' r.1.1.2 = true →
                       UserAgentManager.shutdown_event m' = true).
Proof.
  induction order as [|k0 rest IH]; intros agents ths.
  - cbn. split; [lia|]. split; [done|]. split; [done|].
    intros k m' Hk. exists m'. repeat split; try done.
    intros Hin. by apply elem_of_nil in Hin.
  - cbn [stop_all].
    destruct (agents !! k0) as [m|] eqn:Hm.
    + destruct (stop_agent_effect m ths (exit_after k0))
        as (m1 & ths1 & l1 & w1 & -> & Ht1 & Hn1 & Hc1 & Hev1 & Hset1 & Hw1 & Hlen1 & Hmono1).
      specialize (IH (<[k0 := m1]> agents) ths1).
      destruct (stop_all rest exit_after (<[k0 := m1]> agents) ths1)
        as [[[agents2 ths2] l2] w2].
      cbn in IH |- *. destruct IH as (Hw2 & Hlen2 & Hmono2 & Hag2).
      split; [lia|]. split; [congruence|]. split; [by auto|].
      intros k m' Hk. destruct (Hag2 k m' Hk) as (m0 & Hm0 & Ht & Hn & Hc & Hev & Hset).
      destruct (decide (k = k0)) as [->|Hne].
      * rewrite lookup_insert_eq in Hm0. injection Hm0 as <-.
        exists m. split; [done|]. split; [congruence|]. split; [congruence|].
        split; [congruence|]. split; [by auto|].
        intros _ Hal. apply Hev, Hset1.
        unfold UserAgentManager.thread_alive in Hal |- *.
        rewrite Ht, Ht1 in Hal.
        destruct (UserAgentManager.agent_thread m); [|done]. by auto.
      * rewrite lookup_insert_ne in Hm0 by done.
        exists m0. repeat split; try done.
        intros Hin. apply elem_of_cons in Hin as [->|Hin]; [done|]. by apply Hset.
    + specialize (IH agents ths).
      destruct (stop_all rest exit_after agents ths) as [[[agents2 ths2] l2] w2].
      cbn in IH |- *. destruct IH as (Hw2 & Hlen2 & Hmono2 & Hag2).
      split; [lia|]. split; [done|]. split; [done|].
      intros k m' Hk. destruct (Hag2 k m' Hk) as (m0 & Hm0 & Ht & Hn & Hc & Hev & Hset).
      exists m0. repeat split; try done.
      intros Hin. apply elem_of_cons in Hin as [->|Hin]; [congruence|]. by apply Hset.
Qed.

Lemma stop_all_keeps_keys (exit_after : key → option nat) (order : list key) :
  ∀ agents ths k,
    is_Some ((stop_all order exit_after agents ths).1.1.1 !! k) ↔ is_Some (agents !! k).
Proof.
  induction order as [|k0 rest IH]; intros agents ths k; [done|].
  cbn [stop_all]. destruct (agents !! k0) as [m|] eqn:Hm.
  - destruct (stop_agent_effect m ths (exit_after k0))
      as (m1 & ths1 & l1 & w1 & -> & _).
    specialize (IH (<[k0 := m1]> agents) ths1 k).
    destruct (stop_all rest exit_after (<[k0 := m1]> agents) ths1)
      as [[[agents2 ths2] l2] w2].
    cbn in IH |- *. rewrite IH. rewrite lookup_insert_is_Some.
    split; [intros [<-|[_ H]]; eauto | intros H].
    destruct (decide (k0 = k)); [by left|by right].
  - apply IH.
Qed.

Lemma stop_all_never_kills (exit_after : key → option nat) (order : list key) :
  ∀ agents ths,
    (∀ k, exit_after k = None) →
    (stop_all order exit_after agents ths).1.1.2 = ths.
Proof.
  induction order as [|k0 rest IH]; intros agents ths Hn; [done|].
  cbn [stop_all]. destruct (agents !! k0) as [m|]; [|by apply IH].
  rewrite Hn.
  assert (Hs : (UserAgentManager.stop_agent m ths None).1.1.2 = ths).
  { unfold UserAgentManager.stop_agent.
    destruct (UserAgentManager.agent_thread m) as [tid|]; [|done].
    by destruct (is_alive ths tid). }
  destruct (UserAgentManager.stop_agent m ths None) as [[[m1 ths1] l1] w1].
  cbn in Hs. subst ths1. specialize (IH (<[k0 := m1]> agents) ths Hn).
  by destruct (stop_all rest exit_after (<[k0 := m1]> agents) ths)
    as [[[agents2 ths2] l2] w2].
Qed.

(** X9. [signal_handler] spends at most 5 time units per node it visits;
    it leaves the configs and the set of registered nodes as they are; it
    starts no thread and revives none, and when no joined thread returns
    by itself the thread table is unchanged; and every visited manager
    whose thread is still alive when the process exits has its shutdown
    event set. *)
Theorem signal_handler_stops_every_agent
    (order : list key) (exit_after : key → option nat) (st : state) :
  let st' := (signal_handler order exit_after st).1.1 in
  (signal_handler order exit_after st).2 ≤ 5 * length order
  ∧ user_configs st' = user_configs st
  ∧ (∀ k, is_Some (user_agents st' !! k) ↔ is_Some (user_agents st !! k))
  ∧ length (threads st') = length (threads st)
  ∧ (∀ j, is_alive (threads st') j = true → is_alive (threads st) j = true)
  ∧ ((∀ k, exit_after k = None) → threads st' = threads st)
  ∧ (∀ k m', k ∈ order → user_agents st' !! k = Some m' →
             UserAgentManager.thread_alive m' (threads st') = true →
             UserAgentManager.shutdown_event m' = true).
Proof.
  unfold signal_handler.
  pose proof (stop_all_effect exit_after order (user_agents st) (threads st)) as He.
  pose proof (stop_all_keeps_keys exit_after order (user_agents st) (threads st)) as Hk.
  pose proof (stop_all_never_kills exit_after order (user_agents st) (threads st))
    as Hnone.
  destruct (stop_all order exit_after (user_agents st) (threads st))
    as [[[agents' ths'] l] w].
  cbn in He, Hk, Hnone |- *. destruct He as (Hw & Hlen & Hmono & Hag).
  repeat split; try done.
  - by apply Hk.
  - by apply Hk.
  - intros k m' Hin Hl Hal.
    destruct (Hag k m' Hl) as (m0 & _ & _ & _ & _ & _ & Hset). by apply Hset.
Qed.

Lemma signal_handler_stops_every_agent_witness :
  threads (signal_handler [KStr "n1"] (fun _ => None) activated).1.1 = threads activated.
Proof.
  destruct (signal_handler_stops_every_agent [KStr "n1"] (fun _ => None) activated)
    as (_ & _ & _ & _ & _ & H & _).
  apply H. reflexivity.
Defined.

(** ** Invariants of the registry along every history *)

Lemma paired_set_config (req : request) (e : option nat) (st : state) :
  paired st → paired (Service.set_config req e st).1.2.
Proof.
  intros [Hk Hm].
  destruct (is_success (Service.set_config req e st).1.1) eqn:Hs.
  - apply set_config_accepted in Hs
      as (d & node_id & k & ths1 & _ & _ & _ & _ & _ & _ & _ & ->).
    split; cbn.
    + intros k'. rewrite !lookup_insert_is_Some. specialize (Hk k'). tauto.
    + intros k' m'. rewrite lookup_insert_Some.
      intros [[_ <-]|[_ H]]; [cbn; eauto | by apply (Hm k')].
  - apply set_config_rejected in Hs as [_ ->]. done.
Qed.

Lemma paired_cleanup_node (n : string) (e : option nat) (st : state) :
  paired st → paired (Service.cleanup_node n e st).1.2.
Proof.
  intros [Hk Hm]. rewrite cleanup_node_state. split; cbn.
  - intros k'. rewrite !lookup_delete_is_Some. specialize (Hk k'). tauto.
  - intros k' m'. rewrite lookup_delete_Some. intros [_ H]. by apply (Hm k').
Qed.

Lemma paired_init (env : string → option string) : paired (Service.__init__ env).1.
Proof.
  unfold Service.__init__, Service._auto_load_env_config.
  destruct (_ && _).
  - rewrite start_agent_spawns by reflexivity.
    split; cbn [fst user_configs user_agents empty_state].
    + intros k'. rewrite !lookup_insert_is_Some, !lookup_empty.
      split; (intros [H|[_ H]]; [by left | by destruct H]).
    + intros k' m'. rewrite lookup_insert_Some, lookup_empty.
      intros [[_ <-]|[_ [=]]]. cbn. eauto.
  - split; cbn.
    + intros k'. rewrite !lookup_empty. split; intros [? [=]].
    + intros k' m'. by rewrite lookup_empty.
Qed.

Lemma paired_run (evs : list event) : ∀ st, paired st → paired (run st evs).
Proof.
  induction evs as [|ev evs IH]; intros st Hp; [done|].
  cbn. apply IH. destruct ev as [req e|n e|tid]; cbn.
  - by apply paired_set_config.
  - by apply paired_cleanup_node.
  - exact Hp.
Qed.

(** X10. In every state the process can reach from its start, by any
    history of activations, cleanups and worker exits, a node has a stored
    config exactly when it has a manager, and every manager has started a
    thread. So the per-node health check has two shapes only: config
    [False] with the agent [None], or config [True] with the agent a
    boolean, the liveness of the manager's thread. *)
Theorem health_check_shapes
    (env : string → option string) (evs : list event) (q : request) (n : string) :
  request_node_id q = PStr n →
  n ≠ "" →
  let st := run (Service.__init__ env).1 evs in
  (∀ k, is_Some (user_configs st !! k) ↔ is_Some (user_agents st !! k))
  ∧ ∃ c a,
      routes.health_check q st
      = resp_success "Health check completed"
          (PDict [("status", PStr "ok");
                  ("nodeId", PStr n);
                  ("services", PDict [("config", PBool c);
                                      ("token", PBool true);
                                      ("agent", a)]);
                  ("config_available", PBool c)])
      ∧ ((c = false ∧ a = PNone ∧ user_agents st !! KStr n = None)
         ∨ (c = true
            ∧ ∃ m tid, user_agents st !! KStr n = Some m
                       ∧ UserAgentManager.agent_thread m = Some tid
                       ∧ a = PBool (is_alive (threads st) tid))).
Proof.
  intros Hq Hne st.
  pose proof (paired_run evs _ (paired_init env)) as [Hk Hm]. fold st in Hk, Hm.
  split; [exact Hk|].
  assert (Ht : truthy (PStr n) = true).
  { cbn. destruct (String.eqb_spec n ""); [done|reflexivity]. }
  unfold routes.health_check, Service.health_check. rewrite Hq, Ht.
  destruct (user_agents st !! KStr n) as [m|] eqn:Ha.
  - destruct (Hm _ _ Ha) as [tid Htid].
    assert (Hc : is_Some (user_configs st !! KStr n)) by (apply Hk; eauto).
    exists true, (PBool (is_alive (threads st) tid)). split.
    + cbn. rewrite Htid. by rewrite bool_decide_eq_true_2.
    + right. split; [done|]. by exists m, tid.
  - assert (Hc : ¬ is_Some (user_configs st !! KStr n)).
    { rewrite Hk, Ha. by intros [? ?]. }
    exists false, PNone. split.
    + cbn. by rewrite bool_decide_eq_false_2.
    + left. done.
Qed.

Lemma health_check_shapes_witness :
  ∃ c a,
    routes.health_check (query "n1")
      (run (Service.__init__ media_env).1
         [Activate (activation (config_of full_media "n1")) None; Exit 1])
    = resp_success "Health check completed"
        (PDict [("status", PStr "ok");
                ("nodeId", PStr "n1");
                ("services", PDict [("config", PBool c);
                                    ("token", PBool true);
                                    ("agent", a)]);
                ("config_available", PBool c)]).
Proof.
  destruct (health_check_shapes media_env
              [Activate (activation (config_of full_media "n1")) None; Exit 1]
              (query "n1") "n1" eq_refl) as (_ & c & a & H & _); [discriminate|].
  by exists c, a.
Defined.

(** X11. In every reachable state the global health check (no node id in
    the request) answers success with [total_nodes] the number of
    registered managers and [active_agents] a count that does not exceed
    it. *)
Theorem health_check_counts
    (env : string → option string) (evs : list event) (q : request) :
  truthy (request_node_id q) = false →
  let st := run (Service.__init__ env).1 evs in
  ∃ total active : nat,
    routes.health_check q st
    = resp_success "Health check completed"
        (PDict [("status", PStr "ok");
                ("total_nodes", PInt (Z.of_nat total));
                ("active_agents", PInt (Z.of_nat active));
                ("services", PDict [("config", PBool true);
                                    ("token", PBool true);
                                    ("multi_node", PBool true)])])
    ∧ total = size (user_agents st)
    ∧ active ≤ total.
Proof.
  intros Hq st.
  pose proof (paired_run evs _ (paired_init env)) as [Hk _]. fold st in Hk.
  assert (Hsize : size (user_configs st) = size (user_agents st)).
  { rewrite <- !size_dom. f_equal. apply set_eq. intros k.
    rewrite !elem_of_dom. apply Hk. }
  eexists _, _. split; [|split].
  - unfold routes.health_check, Service.health_check.
    destruct (request_node_id q) as [| | |s| |]; try reflexivity.
    rewrite Hq. reflexivity.
  - exact Hsize.
  - rewrite Hsize. etransitivity; [apply List.filter_length_le|].
    by rewrite length_fmap, length_map_to_list.
Qed.

Lemma health_check_counts_witness :
  ∃ total active : nat,
    routes.health_check
      {| get_json := Raise (HTTPException "415 Unsupported Media Type");
         args := []; x_node_id := None |} activated
    = resp_success "Health check completed"
        (PDict [("status", PStr "ok");
                ("total_nodes", PInt (Z.of_nat total));
                ("active_agents", PInt (Z.of_nat active));
                ("services", PDict [("config", PBool true);
                                    ("token", PBool true);
                                    ("multi_node", PBool true)])])
    ∧ active ≤ total.
Proof.
  destruct (health_check_counts (fun _ => None)
              [Activate (activation (config_of full_media "n1")) None]
              {| get_json := Raise (HTTPException "415 Unsupported Media Type");
         args := []; x_node_id := None |}
              eq_refl) as (total & active & H & _ & Hle).
  by exists total, active.
Defined.

(** ** Workers that outlive their manager *)

Lemma unreferenced_set_config (req : request) (e : option nat) (st : state) (tid : nat) :
  is_alive (threads st) tid = true →
  unreferenced st tid →
  is_alive (threads (Service.set_config req e st).1.2) tid = true
  ∧ unreferenced (Service.set_config req e st).1.2 tid.
Proof.
  intros Ha Hu.
  destruct (is_success (Service.set_config req e st).1.1) eqn:Hs.
  - apply set_config_accepted in Hs
      as (d & node_id & k & ths1 & _ & _ & _ & _ & _ & Hths & _ & ->).
    assert (H1 : ths1 !! tid = threads st !! tid).
    { subst ths1. destruct (user_agents st !! k) as [old|] eqn:Hold; [|done].
      apply stop_agent_others. by apply (Hu k). }
    assert (Hlt : tid < length ths1).
    { apply lookup_lt_is_Some. rewrite H1. unfold is_alive in Ha.
      destruct (threads st !! tid); [eauto|done]. }
    split; cbn.
    + unfold is_alive in Ha |- *. by rewrite lookup_app_l, H1.
    + intros k' m'. cbn. rewrite lookup_insert_Some.
      intros [[_ <-]|[_ H]]; [cbn; intros [=]; lia | by apply (Hu k')].
  - apply set_config_rejected in Hs as [_ ->]. done.
Qed.

Lemma unreferenced_cleanup_node (n : string) (e : option nat) (st : state) (tid : nat) :
  is_alive (threads st) tid = true →
  unreferenced st tid →
  is_alive (threads (Service.cleanup_node n e st).1.2) tid = true
  ∧ unreferenced (Service.cleanup_node n e st).1.2 tid.
Proof.
  intros Ha Hu. rewrite cleanup_node_state. split; cbn.
  - destruct (user_agents st !! KStr n) as [m|] eqn:Hm; [|done].
    unfold is_alive in Ha |- *. rewrite stop_agent_others; [done|]. by apply (Hu (KStr n)).
  - intros k' m'. cbn. rewrite lookup_delete_Some. intros [_ H]. by apply (Hu k').
Qed.

Lemma unreferenced_run (tid : nat) (evs : list event) :
  ∀ st,
    is_alive (threads st) tid = true →
    unreferenced st tid →
    (∀ ev, ev ∈ evs → ev ≠ Exit tid) →
    is_alive (threads (run st evs)) tid = true ∧ unreferenced (run st evs) tid.
Proof.
  induction evs as [|ev evs IH]; intros st Ha Hu Hev; [done|].
  cbn. assert (Hev' : ∀ ev', ev' ∈ evs → ev' ≠ Exit tid).
  { intros ev' Hin. apply Hev. by right. }
  assert (Hne : ev ≠ Exit tid) by (apply Hev; by left).
  destruct ev as [req e|n e|j]; cbn.
  - destruct (unreferenced_set_config req e st tid Ha Hu). by apply IH.
  - destruct (unreferenced_cleanup_node n e st tid Ha Hu). by apply IH.
  - apply IH; [|done|done]. cbn. unfold is_alive, terminate in Ha |- *.
    rewrite list_lookup_alter_ne; [done|]. congruence.
Qed.

(** X12. When [cleanup_node] joins a live worker that does not exit within
    the grace timeout, the worker's thread stays alive with no manager
    holding it; and from then on no activation, cleanup or exit of another
    thread, in any number and order, stops it or gives it a manager
    again. *)
Theorem stuck_worker_outlives_cleanup
    (n : string) (e : option nat) (st : state) (m : UserAgentManager.t)
    (tid : nat) (evs : list event) :
  user_agents st !! KStr n = Some m →
  UserAgentManager.agent_thread m = Some tid →
  is_alive (threads st) tid = true →
  in_time e = false →
  (∀ k m', k ≠ KStr n → user_agents st !! k = Some m' →
           UserAgentManager.agent_thread m' ≠ Some tid) →
  (∀ ev, ev ∈ evs → ev ≠ Exit tid) →
  let st' := run (Service.cleanup_node n e st).1.2 evs in
  is_alive (threads st') tid = true ∧ unreferenced st' tid.
Proof.
  intros Hm Ht Ha He Hothers Hev st'. apply unreferenced_run; [| |done].
  - rewrite cleanup_node_state. cbn. rewrite Hm.
    by rewrite (stop_agent_stuck m (threads st) e tid Ht Ha He).
  - rewrite cleanup_node_state. intros k m'. cbn. rewrite lookup_delete_Some.
    intros [Hne H]. by apply (Hothers k).
Qed.

Lemma stuck_worker_outlives_cleanup_witness :
  is_alive
    (threads
       (run (Service.cleanup_node "n1" None activated).1.2
          [Activate (activation (config_of full_media "n1")) (Some 0);
           Cleanup "n1" (Some 0)])) 0 = true.
Proof.
  refine (proj1 (stuck_worker_outlives_cleanup "n1" None activated
                   (UserAgentManager.set_agent_thread
                      (UserAgentManager.__init__ (PStr "n1") (config_of full_media "n1")) 0)
                   0
                   [Activate (activation (config_of full_media "n1")) (Some 0);
                    Cleanup "n1" (Some 0)] eq_refl eq_refl eq_refl eq_refl _ _)).
  - intros k m' Hk Hl.
    assert (Hag : user_agents activated
                  = <[KStr "n1" :=
                        UserAgentManager.set_agent_thread
                          (UserAgentManager.__init__ (PStr "n1")
                             (config_of full_media "n1")) 0]> ∅)
      by (vm_compute; reflexivity).
    rewrite Hag, lookup_insert_ne, lookup_empty in Hl by done. discriminate.
  - intros ev Hin.
    apply elem_of_cons in Hin as [->|Hin]; [discriminate|].
    apply elem_of_cons in Hin as [->|Hin]; [discriminate|].
    by apply elem_of_nil in Hin.
Defined.

(** ** Start-up from the environment *)

Lemma env_config_invariant (env : string → option string) :
  media_credential_invariant (load_config_from_env env)
  = truthy (PStr (getenv env "LIVEKIT_API_KEY" ""))
    && truthy (PStr (getenv env "LIVEKIT_API_SECRET" ""))
    && truthy (PStr (getenv env "LIVEKIT_SERVER_URL" "")).
Proof. reflexivity. Qed.

(** X13. At process start the service registers a node only when the config
    read from the environment satisfies the media-credential invariant:
    then the node named by [NODE_ID] (default ["default-node"]) holds that
    config and a manager whose one thread is alive; otherwise nothing is
    registered and no thread is started. *)
Theorem auto_load_registers_only_valid (env : string → option string) :
  let st := (Service.__init__ env).1 in
  let node := getenv env "NODE_ID" "default-node" in
  (media_credential_invariant (load_config_from_env env) = true →
   user_configs st = {[KStr node := load_config_from_env env]}
   ∧ user_agents st
     = {[KStr node :=
           UserAgentManager.set_agent_thread
             (UserAgentManager.__init__ (PStr node) (load_config_from_env env)) 0]}
   ∧ threads st = [{| thread_node := PStr node; alive := true |}])
  ∧ (media_credential_invariant (load_config_from_env env) = false →
     st = empty_state)
  ∧ (∀ k cfg, user_configs st !! k = Some cfg →
              media_credential_invariant cfg = true).
Proof.
  intros st node. subst st.
  unfold Service.__init__, Service._auto_load_env_config.
  rewrite env_config_invariant.
  destruct (_ && _) eqn:Hv.
  - rewrite start_agent_spawns by reflexivity. cbn [fst]. split; [|split].
    + intros _. repeat split; reflexivity.
    + discriminate.
    + intros k cfg. cbn [user_configs empty_state].
      rewrite lookup_insert_Some, lookup_empty. intros [[_ <-]|[_ [=]]].
      by rewrite env_config_invariant.
  - cbn [fst]. split; [discriminate|]. split; [done|].
    intros k cfg. cbn. by rewrite lookup_empty.
Qed.

Lemma auto_load_registers_only_valid_witness :
  threads (Service.__init__ media_env).1
  = [{| thread_node := PStr "default-node"; alive := true |}]
  ∧ (Service.__init__ (fun _ => None)).1 = empty_state.
Proof.
  split.
  - destruct (auto_load_registers_only_valid media_env) as (H & _).
    apply H. reflexivity.
  - destruct (auto_load_registers_only_valid (fun _ => None)) as (_ & H & _).
    apply H. reflexivity.
Defined.

(** ** Provider initialisation as a whole *)

(** X14. For an assistant with a non-empty config, [initialize] returns
    [True] exactly when the three media credentials are truthy, each of
    the sections [stt], [llm] and [tts] yields a provider and an api key
    (reading them raises for a section that is not an object and for a
    provider that is not a string), and the constructor each initialiser
    calls on that key (none for an optional plugin that was not imported)
    does not raise. It never changes the config or the node, sets the
    initialised flag when it returns [True], clears it when a valid config
    does not initialise, and leaves every adapter as it was when the
    credentials are not all truthy. *)
Theorem initialize_succeeds_iff
    (imported : string → bool) (unicode_lower : string → string)
    (raises : string → provider_kind → pyval → option exn) (a : VoiceAssistant.t) :
  truthy (VoiceAssistant.config a) = true →
  let r := VoiceAssistant.initialize imported unicode_lower raises a in
  (r.1.1 = true
   ↔ all_livekit (VoiceAssistant.config a) required_livekit = Ok true
     ∧ ∀ k, ∃ p key,
         VoiceAssistant.provider_and_key unicode_lower a (section_of k) = Ok (p, key)
         ∧ ∀ plugin, constructor_called imported k p = Some plugin →
                     raises plugin k key = None)
  ∧ VoiceAssistant.config r.1.2 = VoiceAssistant.config a
  ∧ VoiceAssistant.node_id r.1.2 = VoiceAssistant.node_id a
  ∧ (r.1.1 = true → VoiceAssistant._initialized r.1.2 = true)
  ∧ (r.1.1 = false →
     all_livekit (VoiceAssistant.config a) required_livekit = Ok true →
     VoiceAssistant._initialized r.1.2 = false)
  ∧ (all_livekit (VoiceAssistant.config a) required_livekit ≠ Ok true →
     r.1.1 = false
     ∧ ∀ k, VoiceAssistant.get_adapter k r.1.2 = VoiceAssistant.get_adapter k a).
Proof.
  intros Ht r.
  destruct (initialize_frame imported unicode_lower raises a) as [Hc Hn].
  assert (Htrue : r.1.1 = true → r = (true, r.1.2, r.2)).
  { destruct r as [[b a'] l]. cbn. by intros ->. }
  split; [split|].
  - intros Hr. apply Htrue in Hr.
    split; [exact (initialize_validates imported unicode_lower raises a _ _ Ht Hr)|].
    destruct (initialize_true_inv imported unicode_lower raises a _ _ Ht Hr)
      as (_ & _ & _ & Hk).
    intros k. destruct (Hk k) as (p & key & Hp & Hr' & _). eauto.
  - intros [Hv Hall].
    destruct (initialize_true imported unicode_lower raises a Ht Hv Hall)
      as (a' & l & E).
    subst r. by rewrite E.
  - split; [exact Hc|]. split; [exact Hn|]. split; [|split].
    + intros Hr. apply Htrue in Hr.
      by destruct (initialize_true_inv imported unicode_lower raises a _ _ Ht Hr)
        as (_ & _ & Hi & _).
    + intros Hr Hv. subst r. revert Hr.
      rewrite (initialize_steps imported unicode_lower raises a Ht Hv).
      destruct (initialize_kind imported unicode_lower raises STT a)
        as [[a1|e1] l1]; [|reflexivity].
      destruct (initialize_kind imported unicode_lower raises LLM a1)
        as [[a2|e2] l2]; [|reflexivity].
      destruct (initialize_kind imported unicode_lower raises TTS a2)
        as [[a3|e3] l3]; [discriminate|reflexivity].
    + intros Hv. by apply initialize_invalid.
Qed.

Lemma initialize_succeeds_iff_witness :
  (VoiceAssistant.initialize (fun _ => false) lower empty_key_raises
     (VoiceAssistant.__init__ PNone (PStr "n1"))).1.1 = false
  ∧ (VoiceAssistant.initialize (fun _ => false) lower empty_key_raises
       (VoiceAssistant.__init__ keyed_config (PStr "n1"))).1.1 = true
  ∧ ((VoiceAssistant.initialize (fun _ => false) lower empty_key_raises
        (VoiceAssistant.__init__ (load_config_from_env media_env) (PStr "n1"))).1.1 = true
     → False).
Proof.
  split; [|split].
  - destruct (initialize_succeeds_iff (fun _ => false) lower empty_key_raises
                (VoiceAssistant.__init__ PNone (PStr "n1")) eq_refl)
      as (_ & _ & _ & _ & _ & H).
    apply H. discriminate.
  - destruct (initialize_succeeds_iff (fun _ => false) lower empty_key_raises
                (VoiceAssistant.__init__ keyed_config (PStr "n1")) eq_refl)
      as (H & _).
    apply H. split; [reflexivity|].
    intros [| |]; cbn; eexists _, _; (split; [reflexivity|]);
      intros ? [= <-]; reflexivity.
  - intros Hr.
    destruct (initialize_succeeds_iff (fun _ => false) lower empty_key_raises
                (VoiceAssistant.__init__ (load_config_from_env media_env) (PStr "n1"))
                eq_refl) as (H & _).
    apply H in Hr as [_ Hall].
    destruct (Hall STT) as (p & key & [= <- <-] & Hraise).
    discriminate (Hraise "groq" eq_refl).
Defined.

Lemma constructor_called_imported (imported : string → bool) (k : provider_kind)
    (p : string) :
  (∀ n, imported n = true) →
  constructor_called imported k p
  = Some (if is_supported k p then plugin_of p else "groq").
Proof.
  intros Hi. unfold constructor_called. rewrite Hi.
  destruct (String.eqb_spec p "groq") as [->|_]; [by destruct k|].
  by destruct (is_supported k p).
Qed.

(** X15. When every optional plugin was imported and [initialize] returns
    [True], each of the three adapters is set, whatever it was before: it
    is built by the plugin of the section's provider key (with [gemini]
    served by the [google] plugin), or by groq when the initialiser has no
    branch for the key, it is of the section's own class, and it carries
    the api key of its own section. *)
Theorem initialize_sets_every_adapter
    (imported : string → bool) (unicode_lower : string → string)
    (raises : string → provider_kind → pyval → option exn)
    (a a' : VoiceAssistant.t) (l : list log_entry) :
  (∀ n, imported n = true) →
  truthy (VoiceAssistant.config a) = true →
  VoiceAssistant.initialize imported unicode_lower raises a = (true, a', l) →
  ∀ k, ∃ p key,
    VoiceAssistant.provider_and_key unicode_lower a (section_of k) = Ok (p, key)
    ∧ VoiceAssistant.get_adapter k a'
      = Some (Adapter (if is_supported k p then plugin_of p else "groq") k key).
Proof.
  intros Hi Ht Hinit k.
  destruct (initialize_true_inv imported unicode_lower raises a a' l Ht Hinit)
    as (_ & _ & _ & Hk).
  destruct (Hk k) as (p & key & Hp & _ & Hget & _).
  exists p, key. split; [exact Hp|].
  by rewrite (constructor_called_imported imported k p Hi) in Hget.
Qed.

Lemma initialize_sets_every_adapter_witness :
  ∃ p key,
    VoiceAssistant.provider_and_key lower
      (VoiceAssistant.__init__ keyed_config (PStr "n1")) (section_of STT)
    = Ok (p, key)
    ∧ VoiceAssistant.get_adapter STT
        (VoiceAssistant.initialize (fun _ => true) lower empty_key_raises
           (VoiceAssistant.__init__ keyed_config (PStr "n1"))).1.2
      = Some (Adapter (if is_supported STT p then plugin_of p else "groq") STT key).
Proof.
  apply (initialize_sets_every_adapter (fun _ => true) lower empty_key_raises
           (VoiceAssistant.__init__ keyed_config (PStr "n1")) _
           (VoiceAssistant.initialize (fun _ => true) lower empty_key_raises
              (VoiceAssistant.__init__ keyed_config (PStr "n1"))).2);
    reflexivity.
Defined.

(** X16. With the three media credentials in the environment and no
    provider variable set, the config read from the environment is
    initialised by groq alone, with or without optional plugins, on the api
    key of each class's own variable (empty when unset). When the three
    groq constructors accept their keys, initialisation is complete: all
    three adapters are groq adapters and no warning is logged. When the
    first constructor raises, as it does on a key it refuses,
    initialisation fails at once: [initialize] returns [False], no adapter
    is set, and the error is logged. *)
Theorem env_config_initializes_groq
    (env : string → option string) (imported : string → bool)
    (unicode_lower : string → string)
    (raises : string → provider_kind → pyval → option exn) (node : pyval) :
  media_credential_invariant (load_config_from_env env) = true →
  env "STT_PROVIDER" = None →
  env "LLM_PROVIDER" = None →
  env "TTS_PROVIDER" = None →
  (raises "groq" STT (PStr (getenv env "STT_API_KEY" "")) = None →
   raises "groq" LLM (PStr (getenv env "LLM_API_KEY" "")) = None →
   raises "groq" TTS (PStr (getenv env "TTS_API_KEY" "")) = None →
   VoiceAssistant.initialize imported unicode_lower raises
     (VoiceAssistant.__init__ (load_config_from_env env) node)
   = (true,
      {| VoiceAssistant.config := load_config_from_env env;
         VoiceAssistant.node_id := node;
         VoiceAssistant.stt :=
           Some (Adapter "groq" STT (PStr (getenv env "STT_API_KEY" "")));
         VoiceAssistant.llm :=
           Some (Adapter "groq" LLM (PStr (getenv env "LLM_API_KEY" "")));
         VoiceAssistant.tts :=
           Some (Adapter "groq" TTS (PStr (getenv env "TTS_API_KEY" "")));
         VoiceAssistant._initialized := true |},
      [(INFO, InitializingProvider STT "groq" node);
       (INFO, InitializingProvider LLM "groq" node);
       (INFO, InitializingProvider TTS "groq" node);
       (INFO, AssistantInitialized node)]))
  ∧ (∀ e, raises "groq" STT (PStr (getenv env "STT_API_KEY" "")) = Some e →
          VoiceAssistant.initialize imported unicode_lower raises
            (VoiceAssistant.__init__ (load_config_from_env env) node)
          = (false,
             {| VoiceAssistant.config := load_config_from_env env;
                VoiceAssistant.node_id := node;
                VoiceAssistant.stt := None;
                VoiceAssistant.llm := None;
                VoiceAssistant.tts := None;
                VoiceAssistant._initialized := false |},
             [(INFO, InitializingProvider STT "groq" node);
              (ERROR, InitializationFailed node e)])).
Proof.
  intros Hv Hs Hl Ht. rewrite env_config_invariant in Hv.
  apply andb_prop in Hv as [Hv Hu]. apply andb_prop in Hv as [Hk Hsec].
  assert (Es : getenv env "STT_PROVIDER" "groq" = "groq") by (unfold getenv; by rewrite Hs).
  assert (El : getenv env "LLM_PROVIDER" "groq" = "groq") by (unfold getenv; by rewrite Hl).
  assert (Et : getenv env "TTS_PROVIDER" "groq" = "groq") by (unfold getenv; by rewrite Ht).
  split.
  - intros Rs Rl Rt.
    unfold VoiceAssistant.initialize, VoiceAssistant._validate_config,
      VoiceAssistant._initialize_stt, VoiceAssistant._initialize_llm,
      VoiceAssistant._initialize_tts, VoiceAssistant.provider_and_key,
      VoiceAssistant.assign, VoiceAssistant.construct,
      VoiceAssistant.__init__, load_config_from_env.
    cbn -[getenv] in Hk, Hsec, Hu |- *. rewrite Hk, Hsec, Hu.
    rewrite Es, El, Et.
    do 3 (change (VoiceAssistant.str_lower unicode_lower "groq") with "groq";
          cbn -[getenv]; rewrite ?Rs, ?Rl, ?Rt).
    reflexivity.
  - intros e Rs.
    unfold VoiceAssistant.initialize, VoiceAssistant._validate_config,
      VoiceAssistant._initialize_stt, VoiceAssistant.provider_and_key,
      VoiceAssistant.assign, VoiceAssistant.construct,
      VoiceAssistant.__init__, load_config_from_env.
    cbn -[getenv] in Hk, Hsec, Hu |- *. rewrite Hk, Hsec, Hu.
    rewrite Es.
    change (VoiceAssistant.str_lower unicode_lower "groq") with "groq".
    cbn -[getenv]. rewrite Rs. reflexivity.
Qed.

Lemma env_config_initializes_groq_witness :
  (VoiceAssistant.initialize (fun _ => false) lower empty_key_raises
     (VoiceAssistant.__init__ (load_config_from_env keyed_env) (PStr "default-node"))).1.1
  = true
  ∧ (VoiceAssistant.initialize (fun _ => false) lower empty_key_raises
       (VoiceAssistant.__init__ (load_config_from_env media_env) (PStr "default-node"))).1
    = (false,
       {| VoiceAssistant.config := load_config_from_env media_env;
          VoiceAssistant.node_id := PStr "default-node";
          VoiceAssistant.stt := None;
          VoiceAssistant.llm := None;
          VoiceAssistant.tts := None;
          VoiceAssistant._initialized := false |}).
Proof.
  split.
  - exact (f_equal (fun r => r.1.1)
             (proj1 (env_config_initializes_groq keyed_env (fun _ => false) lower
                       empty_key_raises (PStr "default-node")
                       eq_refl eq_refl eq_refl eq_refl)
                eq_refl eq_refl eq_refl)).
  - exact (f_equal fst
             (proj2 (env_config_initializes_groq media_env (fun _ => false) lower
                       empty_key_raises (PStr "default-node")
                       eq_refl eq_refl eq_refl eq_refl)
                (ValueError "an API key is required") eq_refl)).
Defined.
